(** * CodeCrossConverter: archive classification, conversion orchestration
      and output assembly

    A shallow embedding of [file_handler.py], [code_converter.py] and the
    [/convert] handler of [app.py], with the properties of the
    specification stated over it.

    Python [str] values are modelled as [string] (sequences of 8-bit
    characters); [str.lower] and [str.upper] act on the ASCII letters, which
    is what they do on every path and pattern that occurs in the tables of
    the program.  Paths use the POSIX separator. *)

From Stdlib Require Import String Ascii List Bool Arith Lia.
Import ListNotations.
Open Scope list_scope.
Open Scope string_scope.

(** ** Python string primitives *)

Module Py.

Definition is_upper (c : ascii) : bool :=
  let n := nat_of_ascii c in (65 <=? n)%nat && (n <=? 90)%nat.

Definition is_lower (c : ascii) : bool :=
  let n := nat_of_ascii c in (97 <=? n)%nat && (n <=? 122)%nat.

Definition lower_ascii (c : ascii) : ascii :=
  if is_upper c then ascii_of_nat (nat_of_ascii c + 32) else c.

Definition upper_ascii (c : ascii) : ascii :=
  if is_lower c then ascii_of_nat (nat_of_ascii c - 32) else c.

Fixpoint map_chars (f : ascii -> ascii) (s : string) : string :=
  match s with
  | EmptyString => EmptyString
  | String c s' => String (f c) (map_chars f s')
  end.

(** [s.lower()] and [s.upper()] *)
Definition lower : string -> string := map_chars lower_ascii.
Definition upper : string -> string := map_chars upper_ascii.

(** [s.startswith(p)] *)
Fixpoint startswith (s p : string) : bool :=
  match p, s with
  | EmptyString, _ => true
  | String _ _, EmptyString => false
  | String b p', String a s' => Ascii.eqb a b && startswith s' p'
  end.

(** [s.endswith(p)]: some tail of [s] is [p]. *)
Fixpoint endswith (s p : string) : bool :=
  String.eqb s p ||
  match s with
  | EmptyString => false
  | String _ s' => endswith s' p
  end.

(** [p in s]: [p] starts at some position of [s]. *)
Fixpoint contains (s p : string) : bool :=
  startswith s p ||
  match s with
  | EmptyString => false
  | String _ s' => contains s' p
  end.

(** [s.count(c)] for a one-character [c] *)
Fixpoint count (c : ascii) (s : string) : nat :=
  match s with
  | EmptyString => 0
  | String a s' => (if Ascii.eqb a c then 1 else 0) + count c s'
  end.

(** [s.rfind(c)] for a one-character [c]; [None] stands for [-1]. *)
Fixpoint rfind (c : ascii) (s : string) : option nat :=
  match s with
  | EmptyString => None
  | String a s' =>
      match rfind c s' with
      | Some i => Some (S i)
      | None => if Ascii.eqb a c then Some 0 else None
      end
  end.

(** [s[n:]] and [s[:n]] for [0 <= n] *)
Fixpoint drop (n : nat) (s : string) : string :=
  match n, s with
  | O, _ => s
  | S _, EmptyString => EmptyString
  | S n', String _ s' => drop n' s'
  end.

Fixpoint take (n : nat) (s : string) : string :=
  match n, s with
  | O, _ => EmptyString
  | S _, EmptyString => EmptyString
  | S n', String a s' => String a (take n' s')
  end.

(** [s[:-1]] *)
Definition drop_last (s : string) : string := take (String.length s - 1) s.

(** [s.split(c)] for a one-character separator: never the empty list. *)
Fixpoint split (c : ascii) (s : string) : list string :=
  match s with
  | EmptyString => [EmptyString]
  | String a s' =>
      if Ascii.eqb a c then EmptyString :: split c s'
      else match split c s' with
           | h :: t => String a h :: t
           | [] => [String a EmptyString]
           end
  end.

(** [c.join(l)] *)
Fixpoint join (c : string) (l : list string) : string :=
  match l with
  | [] => EmptyString
  | [x] => x
  | x :: rest => x ++ c ++ join c rest
  end.

(** [x in l] for a list of strings *)
Definition mem (x : string) (l : list string) : bool :=
  existsb (String.eqb x) l.

(** [str.isspace] on one character: TAB..CR, FS..US and the space. *)
Definition is_space (c : ascii) : bool :=
  let n := nat_of_ascii c in
  ((9 <=? n)%nat && (n <=? 13)%nat) || ((28 <=? n)%nat && (n <=? 32)%nat).

Fixpoint lstrip (s : string) : string :=
  match s with
  | EmptyString => EmptyString
  | String a s' => if is_space a then lstrip s' else s
  end.

Fixpoint rstrip (s : string) : string :=
  match s with
  | EmptyString => EmptyString
  | String a s' =>
      match rstrip s' with
      | EmptyString => if is_space a then EmptyString else String a EmptyString
      | r => String a r
      end
  end.

(** [s.strip()] *)
Definition strip (s : string) : string := rstrip (lstrip s).

(** [os.path.basename(p)]: [p[p.rfind('/') + 1:]] *)
Definition basename (p : string) : string :=
  match rfind "/" p with
  | Some i => drop (i + 1) p
  | None => p
  end.

(** [pathlib.PurePosixPath(p).name]: the last of the components of [p]
    that are neither empty nor ["."]; [""] when there is none. *)
Definition path_name (p : string) : string :=
  last (filter (fun x => negb (String.eqb x "") && negb (String.eqb x "."))
               (split "/" p))
       "".

(** [pathlib.PurePosixPath(p).suffix]: from the last dot of the name, when
    that dot is neither its first nor its last character. *)
Definition path_suffix (p : string) : string :=
  let name := path_name p in
  match rfind "." name with
  | Some i =>
      if (0 <? i)%nat && (i <? String.length name - 1)%nat then drop i name
      else ""
  | None => ""
  end.

(** The scan of [os.path.splitext] over the characters between the last
    separator and the last dot: is one of them not a dot? *)
Fixpoint has_non_dot (s : string) : bool :=
  match s with
  | EmptyString => false
  | String a s' => negb (Ascii.eqb a ".") || has_non_dot s'
  end.

(** [os.path.splitext(p)]: the extension starts at the last dot, when that
    dot lies after the last separator and some character between the two
    is not a dot. *)
Definition splitext (p : string) : string * string :=
  let filenameIndex :=
    match rfind "/" p with Some sepIndex => sepIndex + 1 | None => 0 end in
  match rfind "." p with
  | Some dotIndex =>
      if (filenameIndex <=? dotIndex)%nat &&
         has_non_dot (take (dotIndex - filenameIndex) (drop filenameIndex p))
      then (take dotIndex p, drop dotIndex p)
      else (p, "")
  | None => (p, "")
  end.

End Py.

(** ** Results of calls that may raise *)

Inductive outcome (A : Type) : Type :=
| Returned (a : A)
| Raised (msg : string).

Arguments Returned {A} a.
Arguments Raised {A} msg.

(** ** file_handler.py *)

Module FileHandler.

(** [self.code_extensions.get(platform, [])] *)
Definition code_extensions (platform : string) : list string :=
  if String.eqb platform "android_java" then [".java"; ".xml"]
  else if String.eqb platform "android_kotlin" then [".kt"; ".xml"]
  else if String.eqb platform "ios_swift" then [".swift"; ".storyboard"; ".xib"]
  else [].

Definition skip_patterns : list string :=
  [ ".git/"; ".idea/"; ".vscode/"; "__pycache__/";
    ".gradle/"; "build/"; "bin/"; "obj/"; "target/";
    ".DS_Store"; "Thumbs.db"; ".gitignore"; ".gitattributes";
    "gradle/"; "gradlew"; "gradlew.bat"; "local.properties";
    "Pods/"; "DerivedData/"; ".xcworkspace/"; ".xcodeproj/";
    ".png"; ".jpg"; ".jpeg"; ".gif"; ".ico"; ".svg"; ".webp";
    ".mp3"; ".mp4"; ".avi"; ".mov"; ".wav";
    "proguard-rules.pro"; ".pro"; ".properties";
    ".md"; ".txt"; ".pdf"; ".docx";
    ".zip"; ".tar"; ".gz"; ".rar" ].

Definition preserve_files : list string :=
  [ ".png"; ".jpg"; ".jpeg"; ".gif"; ".ico"; ".svg"; ".webp";
    ".mp3"; ".mp4"; ".avi"; ".mov"; ".wav";
    "androidmanifest.xml"; "info.plist" ].

Definition exact_names : list string :=
  [ "gradlew"; "gradlew.bat"; "local.properties"; ".ds_store"; "thumbs.db" ].

Definition suspicious_patterns : list string :=
  [ "generated"; "cache"; "temp"; "tmp"; ".class"; ".dex"; ".o" ].

(** The body of the loop over [self.skip_patterns]. *)
Definition pattern_hits (file_path_lower pattern : string) : bool :=
  if Py.endswith pattern "/" then
    Py.contains ("/" ++ file_path_lower ++ "/") ("/" ++ Py.drop_last pattern ++ "/")
    || Py.startswith file_path_lower (Py.drop_last pattern ++ "/")
  else
    Py.endswith file_path_lower pattern || Py.contains file_path_lower pattern.

Definition path_depth (file_path : string) : nat := Py.count "/" file_path.

Definition _should_skip_file (file_path : string) : bool :=
  let file_path_lower := Py.lower file_path in
  let file_name := Py.basename file_path_lower in
  if Py.mem file_name exact_names then true
  else if existsb (pattern_hits file_path_lower) skip_patterns then true
  else if (6 <? path_depth file_path)%nat then true
  else if existsb (fun pattern => Py.contains file_path_lower pattern)
                  suspicious_patterns then true
  else false.

(** The [should_preserve] flag computed by [_extract_preserve_files]. *)
Definition should_preserve (file_path : string) : bool :=
  let file_path_lower := Py.lower file_path in
  let file_name := Py.basename file_path_lower in
  existsb (fun preserve_pattern =>
             Py.endswith file_path_lower preserve_pattern
             || Py.contains file_name preserve_pattern)
          preserve_files.

(** What staging one entry for conversion does: [tempfile.mkdtemp()] may
    raise (caught by the outer handler of the loop body),
    [zip_ref.extract] may raise (caught by the inner handler), and
    otherwise the staged file is tested for existence, size and a
    readable leading sample. *)
Inductive staging : Type :=
| MkdtempRaises (msg : string)
| ExtractRaises (msg : string)
| Extracted (extracted_path : string) (exists_ : bool) (getsize : nat)
            (readable : bool).

(** One member of [zip_ref.namelist()], with what the two extractions
    of it do: the one of [extract_code_files] and the one of
    [_extract_preserve_files]. *)
Record zip_entry : Type := {
  file_path : string;
  code_stage : staging;
  preserve_stage : outcome string
}.

(** What [zipfile.ZipFile(zip_path, 'r')] does. *)
Inductive zip_file : Type :=
| BadZipFile
| OpenRaises (msg : string)
| Opened (namelist : list zip_entry).

Record extraction : Type := {
  extracted_files : list (string * string);
  skipped_files : list string;
  error_files : list string
}.

Definition no_files : extraction :=
  {| extracted_files := []; skipped_files := []; error_files := [] |}.

(** One iteration of the loop of [extract_code_files]. *)
Definition code_step (valid_extensions : list string)
           (acc : extraction) (e : zip_entry) : extraction :=
  let p := file_path e in
  if Py.endswith p "/" then acc
  else if _should_skip_file p then
    {| extracted_files := extracted_files acc;
       skipped_files := (skipped_files acc ++ [p])%list;
       error_files := error_files acc |}
  else if Py.mem (Py.lower (Py.path_suffix p)) valid_extensions then
    match code_stage e with
    | MkdtempRaises _ =>
        {| extracted_files := extracted_files acc;
           skipped_files := skipped_files acc;
           error_files := (error_files acc ++ [(p ++ " (processing error)")%string])%list |}
    | ExtractRaises _ =>
        {| extracted_files := extracted_files acc;
           skipped_files := skipped_files acc;
           error_files := (error_files acc ++ [(p ++ " (extraction failed)")%string])%list |}
    | Extracted extracted_path exists_ getsize readable =>
        if exists_ && (0 <? getsize)%nat then
          if readable then
            {| extracted_files := (extracted_files acc ++ [(extracted_path, p)])%list;
               skipped_files := skipped_files acc;
               error_files := error_files acc |}
          else
            {| extracted_files := extracted_files acc;
               skipped_files := skipped_files acc;
               error_files := (error_files acc ++ [(p ++ " (extraction failed)")%string])%list |}
        else
          {| extracted_files := extracted_files acc;
             skipped_files := skipped_files acc;
             error_files := (error_files acc ++ [(p ++ " (empty or corrupted)")%string])%list |}
    end
  else acc.

Definition extract_code_files (zip : zip_file) (platform : string)
  : outcome extraction :=
  let valid_extensions := code_extensions platform in
  match valid_extensions with
  | [] => Raised ("Unsupported platform: " ++ platform)
  | _ :: _ =>
      match zip with
      | BadZipFile => Raised "Invalid ZIP file"
      | OpenRaises msg => Raised ("Failed to extract ZIP file: " ++ msg)
      | Opened namelist =>
          Returned (fold_left (code_step valid_extensions) namelist no_files)
      end
  end.

(** One iteration of the loop of [_extract_preserve_files]. *)
Definition preserve_step (acc : list (string * string)) (e : zip_entry)
  : list (string * string) :=
  let p := file_path e in
  if Py.endswith p "/" then acc
  else if should_preserve p && negb (_should_skip_file p) then
    match preserve_stage e with
    | Returned extracted_path => (acc ++ [(extracted_path, p)])%list
    | Raised _ => acc
    end
  else acc.

Definition _extract_preserve_files (zip : zip_file) : list (string * string) :=
  match zip with
  | Opened namelist => fold_left preserve_step namelist []
  | BadZipFile | OpenRaises _ => []
  end.

Record project : Type := {
  code_files : list (string * string);
  preserved : list (string * string);
  skipped : list string;
  errors : list string
}.

Definition extract_project_files (zip : zip_file) (platform : string)
  : outcome project :=
  match extract_code_files zip platform with
  | Raised msg => Raised msg
  | Returned x =>
      Returned {| code_files := extracted_files x;
                  preserved := _extract_preserve_files zip;
                  skipped := skipped_files x;
                  errors := error_files x |}
  end.

(** [validate_zip_file] *)
Definition validate_zip_file (zip : zip_file) : bool :=
  match zip with
  | Opened _ => true
  | BadZipFile | OpenRaises _ => false
  end.

(** [validate_file_platform] *)
Definition validate_file_platform (filename platform : string) : bool :=
  Py.mem (Py.lower (Py.path_suffix filename)) (code_extensions platform).

(** [get_file_count]: an archive that cannot be opened counts for nothing. *)
Definition get_file_count (zip : zip_file) (platform : string) : nat :=
  let valid_extensions := code_extensions platform in
  match zip with
  | Opened namelist =>
      fold_left
        (fun count e =>
           if negb (Py.endswith (file_path e) "/") then
             if Py.mem (Py.lower (Py.path_suffix (file_path e))) valid_extensions
             then count + 1 else count
           else count)
        namelist 0
  | BadZipFile | OpenRaises _ => 0
  end.

(** The members of the archive that are not directories. *)
Definition non_directory (namelist : list zip_entry) : list zip_entry :=
  filter (fun e => negb (Py.endswith (file_path e) "/")) namelist.

End FileHandler.

(** ** code_converter.py *)

Module CodeConverter.

(** The newline character of the Python string literals. *)
Definition nl : string := String "010" EmptyString.

(** A text given line by line. *)
Definition text (lines : list string) : string := Py.join nl lines.

(** *** The environment of a conversion

    The two things [convert_files] does to the outside world are reading
    staged files and calling the chat-completion endpoint.  Both are
    oracles indexed by how many such calls were made before, so that a
    call may fail once and succeed later; the calls and the sleeps are
    recorded, in order, in a trace. *)

Inductive event : Type :=
| OpenRead (file : string)
| Create (system user : string)
| Sleep (seconds : nat).

Definition trace : Type := list event.

Record env : Type := {
  (** [open(file, 'r', encoding='utf-8', errors='ignore').read()], the
      [k]-th such call *)
  read : nat -> string -> outcome string;
  (** [response.choices[0].message.content] of the [k]-th call of
      [chat.completions.create]; [None] is Python's [None] *)
  create : nat -> string -> string -> outcome (option string)
}.

Definition is_open_read (ev : event) : bool :=
  match ev with OpenRead _ => true | _ => false end.

Definition is_create (ev : event) : bool :=
  match ev with Create _ _ => true | _ => false end.

Definition sleeps (t : trace) : list nat :=
  flat_map (fun ev => match ev with Sleep n => [n] | _ => [] end) t.

Definition creates (t : trace) : nat := List.length (filter is_create t).

Definition open_reads (t : trace) : nat := List.length (filter is_open_read t).

(** Computations that read and extend the trace and may raise. *)
Definition M (A : Type) : Type := trace -> outcome A * trace.

Definition ret {A : Type} (a : A) : M A := fun t => (Returned a, t).

Definition raise {A : Type} (msg : string) : M A := fun t => (Raised msg, t).

Definition bind {A B : Type} (m : M A) (k : A -> M B) : M B :=
  fun t =>
    match m t with
    | (Returned a, t') => k a t'
    | (Raised msg, t') => (Raised msg, t')
    end.

(** [try: m  except Exception as e: handler(str(e))] *)
Definition try_except {A : Type} (m : M A) (handler : string -> M A) : M A :=
  fun t =>
    match m t with
    | (Returned a, t') => (Returned a, t')
    | (Raised msg, t') => handler msg t'
    end.

Notation "x <- m ;; k" := (bind m (fun x => k))
  (at level 61, m at next level, right associativity).

Section WithEnv.

Variable E : env.

Definition open_read (file : string) : M string :=
  fun t => (read E (open_reads t) file, (t ++ [OpenRead file])%list).

Definition chat_completions_create (system user : string) : M (option string) :=
  fun t => (create E (creates t) system user, (t ++ [Create system user])%list).

Definition time_sleep (seconds : nat) : M unit :=
  fun t => (Returned tt, (t ++ [Sleep seconds])%list).

Definition _get_system_prompt (source_platform target_platform : string) : string :=
  text
    [ "You are an expert mobile app developer specializing in cross-platform code conversion.";
      "Your task is to convert " ++ source_platform ++ " code to " ++ target_platform
        ++ " code while maintaining the same functionality.";
      "";
      "Special handling for different file types:";
      "- For Java/Kotlin files: Convert class structures, methods, and Android-specific APIs";
      "- For XML layout files: Convert Android layouts to equivalent iOS storyboard/XIB concepts or SwiftUI code";
      "- For AndroidManifest.xml: Convert to iOS Info.plist equivalent information";
      "- Maintain proper platform conventions and best practices";
      "";
      "Key guidelines:";
      "1. Preserve the original logic and functionality";
      "2. Use platform-appropriate naming conventions and patterns";
      "3. Convert UI components to their platform equivalents";
      "4. Handle platform-specific APIs appropriately";
      "5. Maintain code structure and organization";
      "6. Add helpful comments for complex conversions";
      "7. Ensure the converted code follows best practices for the target platform";
      "";
      "Return only the converted code without any explanations or markdown formatting." ].

(** [platform_info.get(platform, platform)] *)
Definition platform_info (platform : string) : string :=
  if String.eqb platform "android_java" then "Android Java"
  else if String.eqb platform "android_kotlin" then "Android Kotlin"
  else if String.eqb platform "ios_swift" then "iOS Swift"
  else platform.

(** [filename.split('.')[-1].lower() if '.' in filename else ''] *)
Definition file_ext_of (filename : string) : string :=
  if Py.contains filename "." then Py.lower (last (Py.split "." filename) "")
  else "".

Definition _create_conversion_prompt
           (source_code source_platform target_platform filename : string) : string :=
  let source_name := platform_info source_platform in
  let target_name := platform_info target_platform in
  let file_ext := file_ext_of filename in
  let '(file_type, conversion_note) :=
    if String.eqb file_ext "xml" then
      if Py.contains (Py.lower filename) "layout"
         || Py.contains (Py.lower filename) "activity_" then
        ("Android layout XML",
         "Convert this Android layout to equivalent " ++ target_name
           ++ " layout approach (SwiftUI, Storyboard, or XIB)")
      else if Py.contains (Py.lower filename) "androidmanifest" then
        ("AndroidManifest.xml",
         "Convert this Android manifest to equivalent iOS Info.plist format")
      else
        (source_name ++ " XML configuration",
         "Convert this configuration to equivalent " ++ target_name ++ " format")
    else
      (source_name ++ " code",
       "Convert this code to " ++ target_name
         ++ " while maintaining the same functionality and structure") in
  text
    [ "Convert the following " ++ file_type ++ " to " ++ target_name ++ ":";
      "";
      "File: " ++ filename;
      "";
      "Source Code:";
      source_code;
      "";
      "Instructions: " ++ conversion_note;
      "- Follow platform best practices and conventions";
      "- Maintain equivalent functionality";
      "- Provide only the converted code without explanations" ].

(** [extension_map.get(target_platform, ext)] *)
Definition extension_map (target_platform ext : string) : string :=
  if String.eqb target_platform "android_java" then ".java"
  else if String.eqb target_platform "android_kotlin" then ".kt"
  else if String.eqb target_platform "ios_swift" then ".swift"
  else ext.

Definition _get_converted_filename
           (original_filename source_platform target_platform : string) : string :=
  let '(name, ext) := Py.splitext original_filename in
  name ++ extension_map target_platform ext.

Definition _get_error_comment (error_message target_platform : string) : string :=
  if String.eqb target_platform "android_java"
     || String.eqb target_platform "android_kotlin"
     || String.eqb target_platform "ios_swift"
  then "// CONVERSION ERROR: " ++ error_message
  else "# CONVERSION ERROR: " ++ error_message.

Definition _get_conversion_guidance
           (source_platform target_platform filename : string) : string :=
  let file_ext := file_ext_of filename in
  if String.eqb source_platform "android_java"
     && String.eqb target_platform "ios_swift" then
    if String.eqb file_ext "xml" then
      text
        [ "/*";
          " * CONVERSION NOTES FOR ANDROID XML TO iOS SWIFT:";
          " * - Convert LinearLayout to VStack/HStack in SwiftUI";
          " * - Convert TextView to Text() in SwiftUI";
          " * - Convert Button to Button() in SwiftUI";
          " * - Convert EditText to TextField() in SwiftUI";
          " * - Replace android:layout_width/height with SwiftUI modifiers";
          " * - Convert android:onClick to SwiftUI actions";
          " */" ]
    else
      text
        [ "/*";
          " * CONVERSION NOTES FOR ANDROID JAVA TO iOS SWIFT:";
          " * - Convert classes to Swift classes/structs";
          " * - Replace findViewById with @IBOutlet or SwiftUI @State";
          " * - Convert setOnClickListener to SwiftUI actions";
          " * - Replace Intent with segues or NavigationView";
          " * - Convert AsyncTask to async/await or combine";
          " * - Replace SharedPreferences with UserDefaults";
          " */" ]
  else if String.eqb source_platform "android_kotlin"
          && String.eqb target_platform "ios_swift" then
    text
      [ "/*";
        " * CONVERSION NOTES FOR ANDROID KOTLIN TO iOS SWIFT:";
        " * - Convert data classes to Swift structs";
        " * - Replace lateinit var with Swift optionals or lazy properties";
        " * - Convert coroutines to async/await";
        " * - Replace Kotlin extensions with Swift extensions";
        " * - Convert when expressions to switch statements";
        " */" ]
  else
    text
      [ "/*";
        " * CONVERSION NOTES FOR " ++ Py.upper source_platform ++ " TO "
          ++ Py.upper target_platform ++ ":";
        " * - Review platform-specific APIs and frameworks";
        " * - Update import statements and dependencies";
        " * - Adapt UI components to target platform conventions";
        " * - Adjust navigation and lifecycle patterns";
        " */" ].

(** The header that opens every fallback result. *)
Definition fallback_header (source_platform target_platform : string) : string :=
  _get_error_comment
    ("AI service temporarily unavailable. This is the original "
       ++ source_platform ++ " code with basic conversion notes.")
    target_platform.

Definition _fallback_conversion
           (source_code source_platform target_platform filename : string) : string :=
  let error_comment := fallback_header source_platform target_platform in
  let guidance := _get_conversion_guidance source_platform target_platform filename in
  error_comment ++ nl ++ nl
    ++ guidance ++ nl ++ nl
    ++ text
         [ "/*";
           " * ORIGINAL " ++ Py.upper source_platform ++ " CODE:";
           " * To complete the conversion:";
           " * 1. Review the conversion notes above";
           " * 2. Apply platform-specific changes manually";
           " * 3. Test and adjust as needed";
           " */" ]
    ++ nl ++ nl
    ++ source_code.

(** The removal of a Markdown fence around the answer; [lines[-1]] raises
    [IndexError] when dropping the first line leaves none. *)
Definition strip_code_fence (converted_code : string) : M string :=
  if Py.startswith converted_code "```" then
    let lines := Py.split "010" converted_code in
    let lines :=
      if Py.startswith (hd "" lines) "```" then tl lines else lines in
    match lines with
    | [] => raise "list index out of range"
    | _ :: _ =>
        let lines :=
          if String.eqb (Py.strip (last lines "")) "```"
          then removelast lines else lines in
        ret (Py.join nl lines)
    end
  else ret converted_code.

Definition max_retries : nat := 3.

(** The body of the [try] of one attempt. *)
Definition attempt_once (system prompt : string) : M string :=
  converted_code <- chat_completions_create system prompt ;;
  match converted_code with
  | Some (String c s) => strip_code_fence (Py.strip (String c s))
  | Some EmptyString | None => raise "Empty response from OpenAI API"
  end.

(** The loop [for attempt in range(max_retries)], from [attempt] on, with
    the current [retry_delay]; [None] is the value of a call whose loop
    ends without [return]. *)
Fixpoint attempts (remaining : list nat) (retry_delay : nat)
         (system prompt fallback : string) : M (option string) :=
  match remaining with
  | [] => ret None
  | attempt :: rest =>
      try_except
        (converted_code <- attempt_once system prompt ;;
         ret (Some converted_code))
        (fun _ =>
           if (attempt <? max_retries - 1)%nat then
             _ <- time_sleep retry_delay ;;
             attempts rest (retry_delay * 2) system prompt fallback
           else
             ret (Some fallback))
  end.

Definition _convert_single_file
           (source_code source_platform target_platform filename : string)
  : M (option string) :=
  let prompt :=
    _create_conversion_prompt source_code source_platform target_platform filename in
  attempts (seq 0 max_retries) 2
           (_get_system_prompt source_platform target_platform)
           prompt
           (_fallback_conversion source_code source_platform target_platform filename).

(** The body of the loop of [convert_files] for one entry. *)
Definition convert_entry (source_platform target_platform : string)
           (converted_files : list (string * option string))
           (entry : string * string) : M (list (string * option string)) :=
  let '(file_path, relative_path) := entry in
  try_except
    (source_code <- open_read file_path ;;
     converted_code <-
       _convert_single_file source_code source_platform target_platform relative_path ;;
     let new_filename :=
       _get_converted_filename relative_path source_platform target_platform in
     ret (converted_files ++ [(new_filename, converted_code)])%list)
    (fun e =>
       let error_comment := _get_error_comment e target_platform in
       original_code <- open_read file_path ;;
       ret (converted_files
              ++ [(relative_path, Some (error_comment ++ nl ++ nl ++ original_code)%string)])%list).

Fixpoint convert_loop (source_platform target_platform : string)
         (extracted_files : list (string * string))
         (converted_files : list (string * option string))
  : M (list (string * option string)) :=
  match extracted_files with
  | [] => ret converted_files
  | entry :: rest =>
      converted_files <-
        convert_entry source_platform target_platform converted_files entry ;;
      convert_loop source_platform target_platform rest converted_files
  end.

Definition convert_files (extracted_files : list (string * string))
           (source_platform target_platform : string)
  : M (list (string * option string)) :=
  convert_loop source_platform target_platform extracted_files [].

End WithEnv.

End CodeConverter.

(** ** app.py: the [/convert] handler *)

Module App.
Import CodeConverter.

Definition UPLOAD_FOLDER : string := "uploads".
Definition CONVERTED_FOLDER : string := "converted".
Definition ALLOWED_EXTENSIONS : list string := ["zip"; "java"; "kt"; "swift"; "xml"].

(** [filename.rsplit('.', 1)[1]], for a [filename] that has a dot *)
Definition after_last_dot (filename : string) : string :=
  match Py.rfind "." filename with
  | Some i => Py.drop (i + 1) filename
  | None => filename
  end.

Definition allowed_file (filename : string) : bool :=
  Py.contains filename "."
  && Py.mem (Py.lower (after_last_dot filename)) ALLOWED_EXTENSIONS.

(** [os.path.join(a, b)] *)
Definition path_join (a b : string) : string :=
  if Py.startswith b "/" then b
  else if String.eqb a "" || Py.endswith a "/" then a ++ b
  else a ++ "/" ++ b.

(** One uploaded file: its name, what [secure_filename] makes of it, what
    [upload_file.save] does, and what [zipfile.ZipFile] finds at the saved
    path (consulted only when the secured name ends in [.zip]). *)
Record upload : Type := {
  filename : string;
  secure_name : string;
  save : outcome unit;
  archive : FileHandler.zip_file
}.

(** The form of the request; an absent platform field is [""], and
    [conversion_type] has its default applied. *)
Record request : Type := {
  code_file : list upload;
  source_platform : string;
  target_platform : string;
  conversion_type : string
}.

(** The output side of the file system: opening the output file (or
    archive) for writing, and reading the bytes of a staged file into
    the archive. *)
Record storage : Type := {
  open_write : string -> outcome unit;
  staged_bytes : string -> outcome string
}.

Inductive artifact : Type :=
| SingleFile (output_path : string) (written : string)
| ZipOutput (output_path : string) (members : list (string * string)).

Inductive response : Type :=
| RedirectIndex (flash : string)
| RedirectPreview (output_filename : string) (is_single_file : bool)
                  (saved : artifact).

(** *** [FileHandler.create_zip] *)

(** [zip_ref.writestr(filename, content)] for each converted file; it
    raises on a content that is [None]. *)
Fixpoint write_converted (converted_files : list (string * option string))
         (members : list (string * string)) : outcome (list (string * string)) :=
  match converted_files with
  | [] => Returned members
  | (filename, Some content) :: rest =>
      write_converted rest (members ++ [(filename, content)])%list
  | (_, None) :: _ => Raised "object of type 'NoneType' has no len()"
  end.

(** [zip_ref.write(file_path, relative_path)] for each preserved file; one
    that raises is left out. *)
Definition add_preserved (FS : storage) (members : list (string * string))
           (preserve_files : list (string * string)) : list (string * string) :=
  fold_left
    (fun members entry =>
       let '(file_path, relative_path) := entry in
       match staged_bytes FS file_path with
       | Returned bytes => (members ++ [(relative_path, bytes)])%list
       | Raised _ => members
       end)
    preserve_files members.

Definition create_zip (FS : storage)
           (converted_files : list (string * option string))
           (output_path : string)
           (preserve_files : list (string * string)) : outcome artifact :=
  match open_write FS output_path with
  | Raised msg => Raised ("Failed to create output ZIP: " ++ msg)
  | Returned _ =>
      match write_converted converted_files [] with
      | Raised msg => Raised ("Failed to create output ZIP: " ++ msg)
      | Returned members =>
          Returned (ZipOutput output_path (add_preserved FS members preserve_files))
      end
  end.

(** *** The handler *)

Record collected : Type := {
  all_extracted_files : list (string * string);
  preserve_files : list (string * string);
  last_filename : string
}.

(** The loop over [valid_files].  The result of [extract_project_files]
    always has four components, so the branch for another length is not
    modelled; the messages flashed for an archive that fails to extract
    are not recorded. *)
Fixpoint process_uploads (valid_files : list upload) (source_platform : string)
         (acc : collected) : outcome collected :=
  match valid_files with
  | [] => Returned acc
  | upload_file :: rest =>
      if String.eqb (filename upload_file) "" then
        process_uploads rest source_platform acc
      else
        let secure_name := secure_name upload_file in
        let upload_path := path_join UPLOAD_FOLDER secure_name in
        match save upload_file with
        | Raised msg => Raised msg
        | Returned _ =>
            if Py.endswith (Py.lower secure_name) ".zip" then
              match FileHandler.extract_project_files
                      (archive upload_file) source_platform with
              | Returned r =>
                  process_uploads rest source_platform
                    {| all_extracted_files :=
                         (all_extracted_files acc ++ FileHandler.code_files r)%list;
                       preserve_files :=
                         (preserve_files acc ++ FileHandler.preserved r)%list;
                       last_filename := secure_name |}
              | Raised _ =>
                  process_uploads rest source_platform
                    {| all_extracted_files := all_extracted_files acc;
                       preserve_files := preserve_files acc;
                       last_filename := secure_name |}
              end
            else
              process_uploads rest source_platform
                {| all_extracted_files :=
                     (all_extracted_files acc ++ [(upload_path, secure_name)])%list;
                   preserve_files := preserve_files acc;
                   last_filename := secure_name |}
        end
  end.

(** The conversion-type filter. *)
Definition keep_for (conversion_type : string) (entry : string * string) : bool :=
  let '(_, relative_path) := entry in
  let file_ext := last (Py.split "." (Py.lower relative_path)) "" in
  if String.eqb conversion_type "logic_only" then
    Py.mem file_ext ["java"; "kt"; "swift"]
  else if String.eqb conversion_type "layouts_only" then
    Py.mem file_ext ["xml"] || Py.contains (Py.lower relative_path) "layout"
  else false.

Definition apply_conversion_type (conversion_type : string)
           (all_extracted_files : list (string * string)) : list (string * string) :=
  match all_extracted_files with
  | _ :: _ =>
      if negb (String.eqb conversion_type "full_project")
      then filter (keep_for conversion_type) all_extracted_files
      else all_extracted_files
  | [] => all_extracted_files
  end.

Section WithEnv.

Variable E : env.
Variable FS : storage.

(** The fallback files made when [convert_files] itself raises; an
    entry whose staged file cannot be read is left out. *)
Fixpoint fallback_files (conversion_error source_platform : string)
         (all_extracted_files : list (string * string))
         (converted_files : list (string * option string))
  : M (list (string * option string)) :=
  match all_extracted_files with
  | [] => ret converted_files
  | (file_path, relative_path) :: rest =>
      converted_files <-
        try_except
          (source_code <- open_read E file_path ;;
           let fallback_comment :=
             "// CONVERSION FAILED: " ++ Py.take 100 conversion_error ++ "..." ++ nl
               ++ "// Original " ++ source_platform ++ " file preserved below"
               ++ nl ++ nl in
           let fallback_content := fallback_comment ++ source_code in
           ret (converted_files ++ [(relative_path, Some fallback_content)])%list)
          (fun _ => ret converted_files) ;;
      fallback_files conversion_error source_platform rest converted_files
  end.

(** The part of the handler under the comment [# Save converted files]. *)
Definition save_converted (is_multiple_files : bool)
           (filename source_platform target_platform : string)
           (converted_files : list (string * option string))
           (preserve_files : list (string * string)) : outcome response :=
  if (List.length converted_files =? 1)%nat && negb is_multiple_files then
    let '(converted_filename, converted_content) :=
      hd ("", None) converted_files in
    let output_filename :=
      "converted_" ++ source_platform ++ "_to_" ++ target_platform ++ "_"
        ++ converted_filename in
    let output_path := path_join CONVERTED_FOLDER output_filename in
    match open_write FS output_path with
    | Raised msg => Raised msg
    | Returned _ =>
        let written :=
          match converted_content with
          | Some (String c s) => String c s
          | Some EmptyString | None => "// Conversion failed - empty content"
          end in
        Returned (RedirectPreview output_filename true
                                  (SingleFile output_path written))
    end
  else
    let output_filename :=
      "converted_" ++ source_platform ++ "_to_" ++ target_platform ++ "_"
        ++ filename in
    let output_path := path_join CONVERTED_FOLDER output_filename in
    match create_zip FS converted_files output_path preserve_files with
    | Raised msg => Raised msg
    | Returned saved => Returned (RedirectPreview output_filename false saved)
    end.

(** The body of the outer [try] of [convert_code]; [None] for the converted
    files stands for the early return of the handler of a failed
    conversion that could make no fallback file. *)
Definition convert_code_body (r : request) : M response :=
  let uploaded_files := code_file r in
  let source_platform := source_platform r in
  let target_platform := target_platform r in
  if forallb (fun f => String.eqb (filename f) "") uploaded_files then
    ret (RedirectIndex "No files selected")
  else if String.eqb source_platform "" || String.eqb target_platform "" then
    ret (RedirectIndex "Please select both source and target platforms")
  else if String.eqb source_platform target_platform then
    ret (RedirectIndex "Source and target platforms must be different")
  else
    let valid_files :=
      filter (fun f => negb (String.eqb (filename f) "") && allowed_file (filename f))
             uploaded_files in
    match valid_files with
    | [] =>
        ret (RedirectIndex
               "No valid files found. Only ZIP, Java, Kotlin, Swift, and XML files are allowed")
    | _ :: _ =>
        let is_multiple_files := (1 <? List.length valid_files)%nat in
        match process_uploads valid_files source_platform
                {| all_extracted_files := []; preserve_files := [];
                   last_filename := "conversion" |} with
        | Raised msg => raise msg
        | Returned c =>
            let all_extracted_files :=
              apply_conversion_type (conversion_type r) (all_extracted_files c) in
            match all_extracted_files with
            | [] =>
                ret (RedirectIndex
                       ("No " ++ source_platform
                          ++ " code files found matching the conversion type."))
            | _ :: _ =>
                converted <-
                  try_except
                    (converted_files <-
                       convert_files E all_extracted_files
                                     source_platform target_platform ;;
                     ret (Some converted_files))
                    (fun conversion_error =>
                       converted_files <-
                         fallback_files conversion_error source_platform
                                        all_extracted_files [] ;;
                       match converted_files with
                       | [] => ret None
                       | _ :: _ => ret (Some converted_files)
                       end) ;;
                match converted with
                | None =>
                    ret (RedirectIndex
                           "Code conversion failed due to service issues. Please try again later.")
                | Some converted_files =>
                    match save_converted is_multiple_files (last_filename c)
                            source_platform target_platform
                            converted_files (preserve_files c) with
                    | Raised msg => raise msg
                    | Returned resp => ret resp
                    end
                end
            end
        end
    end.

Definition convert_code (r : request) : M response :=
  try_except (convert_code_body r)
             (fun _ => ret (RedirectIndex
                              "An error occurred during conversion. Please try again.")).

End WithEnv.

(** Whether the request is one upload that is not an archive. *)
Definition single_non_archive_input (r : request) : bool :=
  match filter (fun f => negb (String.eqb (filename f) "") && allowed_file (filename f))
               (code_file r) with
  | [f] => negb (Py.endswith (Py.lower (secure_name f)) ".zip")
  | _ => false
  end.

End App.

(** ** Facts about the string primitives *)

Module PyFacts.
Import Py.

Lemma lower_ascii_idem (c : ascii) : lower_ascii (lower_ascii c) = lower_ascii c.
Proof. destruct c as [[] [] [] [] [] [] [] []]; reflexivity. Qed.

Lemma lower_ascii_slash (c : ascii) :
  Ascii.eqb (lower_ascii c) "/" = Ascii.eqb c "/".
Proof. destruct c as [[] [] [] [] [] [] [] []]; reflexivity. Qed.

Lemma lower_idem (s : string) : lower (lower s) = lower s.
Proof.
  induction s as [|c s IH]; simpl; [reflexivity|].
  unfold lower in *. simpl. now rewrite lower_ascii_idem, IH.
Qed.

Lemma count_slash_lower (s : string) : count "/" (lower s) = count "/" s.
Proof.
  induction s as [|c s IH]; simpl; [reflexivity|].
  unfold lower in *. simpl. now rewrite lower_ascii_slash, IH.
Qed.

Lemma append_assoc (a b c : string) : (a ++ b) ++ c = a ++ b ++ c.
Proof. induction a as [|x a IH]; simpl; [reflexivity | now rewrite IH]. Qed.

Lemma mem_In (x : string) (l : list string) : mem x l = true <-> In x l.
Proof.
  unfold mem. rewrite existsb_exists. split.
  - intros [y [Hy E]]. apply String.eqb_eq in E. now subst.
  - intros H. exists x. split; [assumption | apply String.eqb_refl].
Qed.

(** A string split at a separator has one more part than it has
    separators. *)
Lemma split_length (c : ascii) (s : string) :
  List.length (split c s) = S (count c s).
Proof.
  induction s as [|a s IH]; simpl; [reflexivity|].
  destruct (Ascii.eqb a c); simpl.
  - now rewrite IH.
  - destruct (split c s) as [|h t]; simpl in *; [discriminate | assumption].
Qed.

End PyFacts.

(** ** Facts about the classifier *)

Module FileHandlerFacts.
Import Py PyFacts FileHandler.

(** The skip patterns that are not folder patterns, and the suspicious
    patterns: the ones [_should_skip_file] looks for anywhere in the
    lowercased path. *)
Definition substring_patterns : list string :=
  (filter (fun pattern => negb (endswith pattern "/")) skip_patterns
   ++ suspicious_patterns)%list.

(** The paths whose extension [extract_code_files] does not recognise and
    that no skip rule matches: the loop body does nothing for them. *)
Definition unrecognised (valid_extensions : list string) (e : zip_entry) : bool :=
  negb (_should_skip_file (file_path e))
  && negb (mem (lower (path_suffix (file_path e))) valid_extensions).

Definition merge (a b : extraction) : extraction :=
  {| extracted_files := (extracted_files a ++ extracted_files b)%list;
     skipped_files := (skipped_files a ++ skipped_files b)%list;
     error_files := (error_files a ++ error_files b)%list |}.

(** How many of the three lists an entry was appended to. *)
Definition landed (x : extraction) : nat :=
  List.length (extracted_files x) + List.length (skipped_files x)
  + List.length (error_files x).

(** What one entry alone adds to the three lists. *)
Definition contribution (valid_extensions : list string) (e : zip_entry)
  : extraction :=
  code_step valid_extensions no_files e.

Lemma merge_assoc (a b c : extraction) :
  merge (merge a b) c = merge a (merge b c).
Proof. unfold merge; simpl. now rewrite !app_assoc. Qed.

Lemma merge_no_files_r (a : extraction) : merge a no_files = a.
Proof. destruct a; unfold merge; simpl. now rewrite !app_nil_r. Qed.

Lemma merge_no_files_l (a : extraction) : merge no_files a = a.
Proof. now destruct a. Qed.

Lemma landed_merge (a b : extraction) : landed (merge a b) = landed a + landed b.
Proof. unfold landed, merge; simpl. rewrite !length_app. lia. Qed.

Lemma code_step_merge (valid : list string) (acc : extraction) (e : zip_entry) :
  code_step valid acc e = merge acc (contribution valid e).
Proof.
  destruct acc as [xs ss es]. unfold contribution, code_step, merge.
  destruct (endswith (file_path e) "/"); [simpl; now rewrite !app_nil_r|].
  destruct (_should_skip_file (file_path e)); [simpl; now rewrite !app_nil_r|].
  destruct (mem _ valid); [|simpl; now rewrite !app_nil_r].
  destruct (code_stage e) as [m|m|path ex sz rd];
    try (simpl; now rewrite !app_nil_r).
  destruct (ex && (0 <? sz)%nat); [destruct rd|]; simpl; now rewrite !app_nil_r.
Qed.

Lemma fold_code_step (valid : list string) (l : list zip_entry) (acc : extraction) :
  fold_left (code_step valid) l acc
  = merge acc (fold_left (code_step valid) l no_files).
Proof.
  revert acc. induction l as [|e l IH]; intros acc; simpl.
  - now rewrite merge_no_files_r.
  - rewrite IH, (IH (code_step valid no_files e)).
    rewrite (code_step_merge valid acc e), merge_assoc. reflexivity.
Qed.

Lemma fold_code_step_cons (valid : list string) (e : zip_entry) (l : list zip_entry) :
  fold_left (code_step valid) (e :: l) no_files
  = merge (contribution valid e) (fold_left (code_step valid) l no_files).
Proof. simpl. now rewrite fold_code_step. Qed.

(** An entry is appended to one list, or to none when it is a directory
    or unrecognised. *)
Lemma landed_contribution (valid : list string) (e : zip_entry) :
  landed (contribution valid e)
  = if endswith (file_path e) "/" then 0
    else if unrecognised valid e then 0 else 1.
Proof.
  unfold contribution, code_step, unrecognised.
  destruct (endswith (file_path e) "/"); [reflexivity|].
  destruct (_should_skip_file (file_path e)); [reflexivity|].
  destruct (mem _ valid); [|reflexivity].
  destruct (code_stage e) as [m|m|path ex sz rd]; try reflexivity.
  destruct (ex && (0 <? sz)%nat); [destruct rd|]; reflexivity.
Qed.

Lemma landed_fold (valid : list string) (l : list zip_entry) :
  landed (fold_left (code_step valid) l no_files)
  + List.length (filter (unrecognised valid) (non_directory l))
  = List.length (non_directory l).
Proof.
  induction l as [|e l IH]; [reflexivity|].
  rewrite fold_code_step_cons, landed_merge, landed_contribution.
  unfold non_directory in *. simpl.
  destruct (endswith (file_path e) "/"); simpl; [exact IH|].
  destruct (unrecognised valid e); simpl; lia.
Qed.

(** The three lists, read off the entries in archive order. *)
Lemma fold_concat (valid : list string) (l : list zip_entry) :
  fold_left (code_step valid) l no_files
  = fold_right (fun e x => merge (contribution valid e) x) no_files l.
Proof.
  induction l as [|e l IH]; [reflexivity|].
  rewrite fold_code_step_cons, IH. reflexivity.
Qed.

Lemma skipped_contribution (valid : list string) (e : zip_entry) (p : string) :
  In p (skipped_files (contribution valid e))
  <-> file_path e = p /\ endswith p "/" = false /\ _should_skip_file p = true.
Proof.
  unfold contribution, code_step.
  destruct (endswith (file_path e) "/") eqn:Hd;
    [simpl; split; [tauto | intros [<- [H _]]; congruence]|].
  destruct (_should_skip_file (file_path e)) eqn:Hs.
  - simpl. split.
    + intros [<-|[]]. auto.
    + intros [H _]. now left.
  - assert (Hno : file_path e = p /\ endswith p "/" = false
                  /\ _should_skip_file p = true -> False)
      by (intros [<- [_ H]]; congruence).
    destruct (mem (lower (path_suffix (file_path e))) valid);
      [|simpl; tauto].
    destruct (code_stage e) as [m|m|path ex sz rd]; try (simpl; tauto).
    destruct (ex && (0 <? sz)%nat); [destruct rd|]; simpl; tauto.
Qed.

Lemma extracted_contribution (valid : list string) (e : zip_entry)
      (staged p : string) :
  In (staged, p) (extracted_files (contribution valid e))
  <-> file_path e = p
      /\ endswith p "/" = false /\ _should_skip_file p = false
      /\ mem (lower (path_suffix p)) valid = true
      /\ exists n, code_stage e = Extracted staged true (S n) true.
Proof.
  unfold contribution, code_step.
  destruct (endswith (file_path e) "/") eqn:Hd;
    [simpl; split; [tauto | intros [<- [H _]]; congruence]|].
  destruct (_should_skip_file (file_path e)) eqn:Hs;
    [simpl; split; [tauto | intros [<- [_ [H _]]]; congruence]|].
  destruct (mem (lower (path_suffix (file_path e))) valid) eqn:Hv;
    [|simpl; split; [tauto | intros [<- [_ [_ [H _]]]]; congruence]].
  destruct (code_stage e) as [m|m|path ex sz rd];
    try (simpl; split; [tauto | intros [_ [_ [_ [_ [n H]]]]]; discriminate]).
  destruct ex, sz as [|n], rd; simpl;
    try (split; [tauto | intros [_ [_ [_ [_ [k H]]]]]; discriminate]).
  split.
  - intros [H|[]]. inversion H; subst. repeat split; auto. now exists n.
  - intros [<- [_ [_ [_ [k H]]]]]. inversion H; subst. now left.
Qed.

Lemma skipped_fold (valid : list string) (l : list zip_entry) (p : string) :
  In p (skipped_files (fold_left (code_step valid) l no_files))
  <-> exists e, In e l /\ file_path e = p
                /\ endswith p "/" = false /\ _should_skip_file p = true.
Proof.
  induction l as [|e l IH].
  - simpl. split; [tauto | intros [e [[] _]]].
  - rewrite fold_code_step_cons. simpl.
    rewrite in_app_iff, IH, skipped_contribution. split.
    + intros [H|[e' [Hin H]]]; [exists e | exists e']; auto.
    + intros [e' [[->|Hin] H]]; [left | right; exists e']; auto.
Qed.

Lemma extracted_fold (valid : list string) (l : list zip_entry)
      (staged p : string) :
  In (staged, p) (extracted_files (fold_left (code_step valid) l no_files))
  <-> exists e, In e l /\ file_path e = p
                /\ endswith p "/" = false /\ _should_skip_file p = false
                /\ mem (lower (path_suffix p)) valid = true
                /\ exists n, code_stage e = Extracted staged true (S n) true.
Proof.
  induction l as [|e l IH].
  - simpl. split; [tauto | intros [e [[] _]]].
  - rewrite fold_code_step_cons. simpl.
    rewrite in_app_iff, IH, extracted_contribution. split.
    + intros [H|[e' [Hin H]]]; [exists e | exists e']; auto.
    + intros [e' [[->|Hin] H]]; [left | right; exists e']; auto.
Qed.


(** The depth rule and the substring rules of [_should_skip_file]. *)
Lemma deep_path_skipped (p : string) :
  6 < path_depth p -> _should_skip_file p = true.
Proof.
  intros H. unfold _should_skip_file.
  destruct (mem _ exact_names); [reflexivity|].
  destruct (existsb _ skip_patterns); [reflexivity|].
  apply Nat.ltb_lt in H. now rewrite H.
Qed.

Lemma substring_pattern_skipped (p pattern : string) :
  In pattern substring_patterns ->
  contains (lower p) pattern = true ->
  _should_skip_file p = true.
Proof.
  unfold substring_patterns. rewrite in_app_iff, filter_In.
  intros Hin Hc. unfold _should_skip_file.
  destruct (mem _ exact_names); [reflexivity|].
  destruct (existsb (pattern_hits (lower p)) skip_patterns) eqn:Hp; [reflexivity|].
  destruct (6 <? path_depth p)%nat; [reflexivity|].
  destruct Hin as [[Hin Hf]|Hin].
  - exfalso. rewrite <- not_true_iff_false in Hp. apply Hp.
    apply existsb_exists. exists pattern. split; [assumption|].
    unfold pattern_hits. apply negb_true_iff in Hf. rewrite Hf, Hc.
    apply orb_true_r.
  - replace (existsb _ suspicious_patterns) with true; [reflexivity|].
    symmetry. apply existsb_exists. exists pattern. auto.
Qed.

Lemma skip_lower (p : string) :
  _should_skip_file (lower p) = _should_skip_file p.
Proof.
  unfold _should_skip_file, path_depth.
  now rewrite lower_idem, count_slash_lower.
Qed.

Lemma preserve_lower (p : string) :
  should_preserve (lower p) = should_preserve p.
Proof. unfold should_preserve. now rewrite lower_idem. Qed.

Lemma preserved_not_skipped (l : list zip_entry) (acc : list (string * string)) :
  (forall x, In x acc -> _should_skip_file (snd x) = false) ->
  forall x, In x (fold_left preserve_step l acc) ->
            _should_skip_file (snd x) = false.
Proof.
  revert acc. induction l as [|e l IH]; intros acc Hacc; [exact Hacc|].
  simpl. apply IH. intros x. unfold preserve_step.
  destruct (endswith (file_path e) "/"); [apply Hacc|].
  destruct (should_preserve (file_path e)); simpl; [|apply Hacc].
  destruct (_should_skip_file (file_path e)) eqn:Hs; simpl; [apply Hacc|].
  destruct (preserve_stage e); [|apply Hacc].
  rewrite in_app_iff. intros [H|[<-|[]]]; [now apply Hacc | exact Hs].
Qed.

End FileHandlerFacts.

(** ** The classifier: properties of the specification *)

Module Classifier.
Import Py PyFacts FileHandler FileHandlerFacts.

(** Membership in a list given by its elements. *)
Ltac in_list := simpl; repeat (first [left; reflexivity | right]).

Definition staged_ok (extracted_path : string) : staging :=
  Extracted extracted_path true 64 true.

(** A project archive: a directory entry, two code files, an icon, a
    build wrapper, a C file, two code files whose staging fails, and three
    code files that skip rules match. *)
Definition sample_namelist : list zip_entry :=
  [ {| file_path := "app/";
       code_stage := staged_ok "/tmp/c0/app";
       preserve_stage := Returned "/tmp/p0/app" |};
    {| file_path := "app/MainActivity.java";
       code_stage := staged_ok "/tmp/c1/app/MainActivity.java";
       preserve_stage := Returned "/tmp/p1/app/MainActivity.java" |};
    {| file_path := "app/activity_main.xml";
       code_stage := staged_ok "/tmp/c2/app/activity_main.xml";
       preserve_stage := Returned "/tmp/p2/app/activity_main.xml" |};
    {| file_path := "app/icon.png";
       code_stage := staged_ok "/tmp/c3/app/icon.png";
       preserve_stage := Returned "/tmp/p3/app/icon.png" |};
    {| file_path := "gradlew";
       code_stage := staged_ok "/tmp/c4/gradlew";
       preserve_stage := Returned "/tmp/p4/gradlew" |};
    {| file_path := "app/native/lib.c";
       code_stage := staged_ok "/tmp/c5/app/native/lib.c";
       preserve_stage := Returned "/tmp/p5/app/native/lib.c" |};
    {| file_path := "app/Broken.java";
       code_stage := ExtractRaises "Bad CRC-32 for file 'app/Broken.java'";
       preserve_stage := Raised "Bad CRC-32 for file 'app/Broken.java'" |};
    {| file_path := "app/Empty.java";
       code_stage := Extracted "/tmp/c7/app/Empty.java" true 0 true;
       preserve_stage := Returned "/tmp/p7/app/Empty.java" |};
    {| file_path := "a/b/c/d/e/f/g/Deep.java";
       code_stage := staged_ok "/tmp/c8/a/b/c/d/e/f/g/Deep.java";
       preserve_stage := Returned "/tmp/p8/a/b/c/d/e/f/g/Deep.java" |};
    {| file_path := "demo.output/Main.java";
       code_stage := staged_ok "/tmp/c9/demo.output/Main.java";
       preserve_stage := Returned "/tmp/p9/demo.output/Main.java" |};
    {| file_path := "My.old.java";
       code_stage := staged_ok "/tmp/c10/My.old.java";
       preserve_stage := Returned "/tmp/p10/My.old.java" |} ].

(** An archive that holds one C source file. *)
Definition c_file_namelist : list zip_entry :=
  [ {| file_path := "src/main.c";
       code_stage := staged_ok "/tmp/c0/src/main.c";
       preserve_stage := Returned "/tmp/p0/src/main.c" |} ].

(** An archive that holds one icon, which both extractions stage without
    error. *)
Definition icon_namelist : list zip_entry :=
  [ {| file_path := "icon.png";
       code_stage := staged_ok "/tmp/c0/icon.png";
       preserve_stage := Returned "/tmp/p0/icon.png" |} ].


(** C1, as stated, does not hold: an archive whose only member is
    [src/main.c] is accepted for [android_java], no skip rule matches the
    member and its extension is not a code extension, so it is appended to
    none of the three lists, while the archive has one non-directory
    entry. *)
Lemma unrecognised_entry_lands_nowhere :
  extract_code_files (Opened c_file_namelist) "android_java" = Returned no_files
  /\ landed no_files = 0
  /\ List.length (non_directory c_file_namelist) = 1
  /\ ~ (forall namelist platform x,
           extract_code_files (Opened namelist) platform = Returned x ->
           List.length (extracted_files x) + List.length (skipped_files x)
           + List.length (error_files x)
           = List.length (non_directory namelist)).
Proof.
  repeat split; try reflexivity.
  intros H.
  specialize (H c_file_namelist "android_java" no_files eq_refl).
  discriminate H.
Qed.

(** C1, amended: for every archive the classifier accepts, the three lists
    are the contributions of the entries in archive order; every
    non-directory entry is appended to exactly one of the three lists,
    except an entry that no skip rule matches and whose extension is not a
    code extension of the platform, which is appended to none; so code
    entries plus skipped paths plus error paths plus those unrecognised
    entries count the non-directory entries. *)
Theorem classification_counts (namelist : list zip_entry) (platform : string)
        (x : extraction) :
  extract_code_files (Opened namelist) platform = Returned x ->
  let valid := code_extensions platform in
  x = fold_right (fun e acc => merge (contribution valid e) acc) no_files namelist
  /\ (forall e, In e (non_directory namelist) ->
                landed (contribution valid e)
                = if unrecognised valid e then 0 else 1)
  /\ List.length (extracted_files x) + List.length (skipped_files x)
     + List.length (error_files x)
     + List.length (filter (unrecognised valid) (non_directory namelist))
     = List.length (non_directory namelist).
Proof.
  intros H valid. subst valid. unfold extract_code_files in H.
  destruct (code_extensions platform) as [|ext exts] eqn:Hv; [discriminate|].
  injection H as <-. repeat split.
  - apply fold_concat.
  - intros e He. unfold non_directory in He. apply filter_In in He.
    destruct He as [_ Hd]. apply negb_true_iff in Hd.
    now rewrite landed_contribution, Hd.
  - apply (landed_fold (ext :: exts) namelist).
Qed.

Lemma classification_counts_witness :
  let x := {| extracted_files :=
                [ ("/tmp/c1/app/MainActivity.java", "app/MainActivity.java");
                  ("/tmp/c2/app/activity_main.xml", "app/activity_main.xml") ];
              skipped_files :=
                [ "app/icon.png"; "gradlew"; "a/b/c/d/e/f/g/Deep.java";
                  "demo.output/Main.java"; "My.old.java" ];
              error_files :=
                [ "app/Broken.java (extraction failed)";
                  "app/Empty.java (empty or corrupted)" ] |} in
  extract_code_files (Opened sample_namelist) "android_java" = Returned x
  /\ 2 + 5 + 2
     + List.length (filter (unrecognised (code_extensions "android_java"))
                           (non_directory sample_namelist))
     = List.length (non_directory sample_namelist).
Proof.
  intros x. split; [reflexivity|].
  exact (proj2 (proj2 (classification_counts sample_namelist "android_java"
                                             x eq_refl))).
Defined.

(** C2 does not hold of the code: [_extract_preserve_files] stages an entry
    only when no skip rule matches it, and every image and media suffix of
    the preserve list is also a skip pattern.  On an archive that holds
    [icon.png], staged without error, the icon is a skipped path and the
    preserve list is empty. *)
Theorem icon_skipped_and_not_preserved :
  extract_project_files (Opened icon_namelist) "android_java"
  = Returned {| code_files := []; preserved := [];
                skipped := ["icon.png"]; errors := [] |}
  /\ should_preserve "icon.png" = true
  /\ _should_skip_file "icon.png" = true.
Proof. repeat split. Qed.

(** No entry that a skip rule matches is ever in the preserve list. *)
Lemma skipped_never_preserved (zip : zip_file) (x : string * string) :
  In x (_extract_preserve_files zip) -> _should_skip_file (snd x) = false.
Proof.
  destruct zip as [| |namelist]; simpl; try tauto.
  apply preserved_not_skipped. intros y [].
Qed.

(** The image and media suffixes of the preserve list are skip patterns. *)
Lemma media_suffix_skipped (p pattern : string) :
  In pattern preserve_files ->
  pattern <> "androidmanifest.xml" -> pattern <> "info.plist" ->
  endswith (lower p) pattern = true ->
  _should_skip_file p = true.
Proof.
  intros Hin Hm Hi He. unfold _should_skip_file.
  destruct (mem _ exact_names); [reflexivity|].
  replace (existsb (pattern_hits (lower p)) skip_patterns) with true;
    [reflexivity|].
  assert (Hskip : In pattern skip_patterns /\ endswith pattern "/" = false).
  { unfold preserve_files in Hin. simpl in Hin.
    decompose [or] Hin; subst; try congruence; try contradiction;
      (split; [apply mem_In; reflexivity | reflexivity]). }
  destruct Hskip as [Hskip Hfolder].
  symmetry. apply existsb_exists. exists pattern. split; [assumption|].
  unfold pattern_hits. now rewrite Hfolder, He.
Qed.



(** C8: the path depth of an entry is the number of separators in its path,
    which is the number of folder segments above its last segment; every
    non-directory entry of depth greater than 6 is among the skipped paths
    and is not a code entry, whatever its extension. *)
Theorem deep_entry_skipped (namelist : list zip_entry) (platform : string)
        (x : extraction) (e : zip_entry) :
  extract_code_files (Opened namelist) platform = Returned x ->
  In e namelist ->
  endswith (file_path e) "/" = false ->
  6 < path_depth (file_path e) ->
  S (path_depth (file_path e)) = List.length (split "/" (file_path e))
  /\ In (file_path e) (skipped_files x)
  /\ forall staged, ~ In (staged, file_path e) (extracted_files x).
Proof.
  unfold extract_code_files. intros H Hin Hd Hdeep.
  destruct (code_extensions platform) as [|ext exts]; [discriminate|].
  injection H as <-.
  pose proof (deep_path_skipped _ Hdeep) as Hs.
  split; [|split].
  - unfold path_depth. symmetry. apply split_length.
  - apply skipped_fold. exists e. auto.
  - intros staged Hx. apply extracted_fold in Hx.
    destruct Hx as [e' [_ [Hp [_ [Hs' _]]]]]. congruence.
Qed.

Lemma deep_entry_skipped_witness :
  exists x,
    extract_code_files (Opened sample_namelist) "android_java" = Returned x
    /\ In "a/b/c/d/e/f/g/Deep.java" (skipped_files x)
    /\ forall staged, ~ In (staged, "a/b/c/d/e/f/g/Deep.java") (extracted_files x).
Proof.
  eexists. split; [reflexivity|].
  refine (proj2 (deep_entry_skipped sample_namelist "android_java" _
            {| file_path := "a/b/c/d/e/f/g/Deep.java";
               code_stage := staged_ok "/tmp/c8/a/b/c/d/e/f/g/Deep.java";
               preserve_stage := Returned "/tmp/p8/a/b/c/d/e/f/g/Deep.java" |}
            eq_refl _ eq_refl _)).
  - in_list.
  - unfold path_depth. simpl. lia.
Defined.

(** C9: a skip pattern that is not a folder pattern, or a suspicious
    pattern, that occurs anywhere in the lowercased path of a non-directory
    entry puts the entry among the skipped paths and keeps it out of the
    code entries; ['.o'], ['tmp'], ['.pro'] and ['.png'] are such patterns,
    and [My.old.java] and [demo.output/Main.java] are skipped. *)
Theorem substring_match_skipped :
  (forall namelist platform x e pattern,
      extract_code_files (Opened namelist) platform = Returned x ->
      In e namelist ->
      endswith (file_path e) "/" = false ->
      In pattern substring_patterns ->
      contains (lower (file_path e)) pattern = true ->
      In (file_path e) (skipped_files x)
      /\ forall staged, ~ In (staged, file_path e) (extracted_files x))
  /\ incl [".o"; "tmp"; ".pro"; ".png"] substring_patterns
  /\ _should_skip_file "My.old.java" = true
  /\ _should_skip_file "demo.output/Main.java" = true.
Proof.
  split; [|split; [|split; reflexivity]].
  - unfold extract_code_files. intros namelist platform x e pattern H Hin Hd Hp Hc.
    destruct (code_extensions platform) as [|ext exts]; [discriminate|].
    injection H as <-.
    pose proof (substring_pattern_skipped _ _ Hp Hc) as Hs.
    split.
    + apply skipped_fold. exists e. auto.
    + intros staged Hx. apply extracted_fold in Hx.
      destruct Hx as [e' [_ [_ [_ [Hs' _]]]]]. congruence.
  - intros p Hp. simpl in Hp.
    decompose [or] Hp; subst; try contradiction;
      (apply mem_In; reflexivity).
Qed.

Lemma substring_match_skipped_witness :
  exists x,
    extract_code_files (Opened sample_namelist) "android_java" = Returned x
    /\ In "My.old.java" (skipped_files x)
    /\ forall staged, ~ In (staged, "My.old.java") (extracted_files x).
Proof.
  eexists. split; [reflexivity|].
  refine (proj1 substring_match_skipped sample_namelist "android_java" _
            {| file_path := "My.old.java";
               code_stage := staged_ok "/tmp/c10/My.old.java";
               preserve_stage := Returned "/tmp/p10/My.old.java" |}
            ".o" eq_refl _ eq_refl _ eq_refl).
  - in_list.
  - apply mem_In. reflexivity.
Defined.

(** C10: the skip predicate and the preserve predicate give the same
    answer on a path and on its lowercased form, and whether an entry is a
    directory does not depend on case either; [Icon.PNG] lowercases to
    [icon.png] and is classified like it. *)
Theorem classification_ignores_case :
  (forall p, _should_skip_file (lower p) = _should_skip_file p)
  /\ (forall p, should_preserve (lower p) = should_preserve p)
  /\ lower "Icon.PNG" = "icon.png"
  /\ _should_skip_file "Icon.PNG" = _should_skip_file "icon.png"
  /\ should_preserve "Icon.PNG" = should_preserve "icon.png".
Proof.
  repeat split.
  - apply skip_lower.
  - apply preserve_lower.
Qed.

End Classifier.

(** ** Facts about the orchestrator *)

Module CodeConverterFacts.
Import Py CodeConverter.

(** The capability gave no answer: it raised, or its answer is [None] or
    the empty string. *)
Definition is_transport_failure (o : outcome (option string)) : bool :=
  match o with Raised _ => true | Returned _ => false end.

Definition is_empty_response (o : outcome (option string)) : bool :=
  match o with
  | Returned None | Returned (Some EmptyString) => true
  | _ => false
  end.

Definition fails (o : outcome (option string)) : bool :=
  is_transport_failure o || is_empty_response o.

(** What the [try] body of one attempt makes of the capability's reply. *)
Definition answer_of (o : outcome (option string)) : outcome string :=
  match o with
  | Returned (Some (String c s)) => fst (strip_code_fence (strip (String c s)) [])
  | Returned (Some EmptyString) | Returned None =>
      Raised "Empty response from OpenAI API"
  | Raised msg => Raised msg
  end.

Lemma creates_app (t u : trace) : creates (t ++ u)%list = creates t + creates u.
Proof. unfold creates. now rewrite filter_app, length_app. Qed.

Lemma open_reads_app (t u : trace) :
  open_reads (t ++ u)%list = open_reads t + open_reads u.
Proof. unfold open_reads. now rewrite filter_app, length_app. Qed.

Lemma sleeps_app (t u : trace) : sleeps (t ++ u)%list = (sleeps t ++ sleeps u)%list.
Proof. unfold sleeps. now rewrite flat_map_app. Qed.

Lemma strip_code_fence_trace (code : string) (t : trace) :
  strip_code_fence code t = (fst (strip_code_fence code []), t).
Proof.
  unfold strip_code_fence.
  destruct (startswith code "```"); [|reflexivity].
  destruct (if startswith (hd "" (split "010" code)) "```"
            then tl (split "010" code) else split "010" code);
    reflexivity.
Qed.

Lemma attempt_once_eq (E : env) (system prompt : string) (t : trace) :
  attempt_once E system prompt t
  = (answer_of (create E (creates t) system prompt),
     (t ++ [Create system prompt])%list).
Proof.
  unfold attempt_once, bind, chat_completions_create, answer_of.
  destruct (create E (creates t) system prompt) as [[[|c s]|]|msg];
    try reflexivity.
  apply strip_code_fence_trace.
Qed.

Lemma fails_answer (o : outcome (option string)) :
  fails o = true -> exists msg, answer_of o = Raised msg.
Proof.
  destruct o as [[[|c s]|]|msg]; simpl; intros H;
    try discriminate; eauto.
Qed.

Lemma attempts_cons (E : env) (attempt : nat) (rest : list nat)
      (retry_delay : nat) (system prompt fallback : string) (t : trace) :
  attempts E (attempt :: rest) retry_delay system prompt fallback t
  = match answer_of (create E (creates t) system prompt) with
    | Returned code => (Returned (Some code), (t ++ [Create system prompt])%list)
    | Raised _ =>
        if (attempt <? max_retries - 1)%nat then
          attempts E rest (retry_delay * 2) system prompt fallback
                   (t ++ [Create system prompt; Sleep retry_delay])%list
        else (Returned (Some fallback), (t ++ [Create system prompt])%list)
    end.
Proof.
  simpl. unfold try_except, bind at 1. rewrite attempt_once_eq.
  destruct (answer_of (create E (creates t) system prompt)); [reflexivity|].
  destruct (attempt <? 2)%nat; [|reflexivity].
  unfold bind, time_sleep. now rewrite <- app_assoc.
Qed.

(** The three attempts of [_convert_single_file], written out. *)
Lemma convert_single_file_unfold (E : env)
      (source_code source_platform target_platform filename : string) (t : trace) :
  let system := _get_system_prompt source_platform target_platform in
  let prompt :=
    _create_conversion_prompt source_code source_platform target_platform filename in
  let fallback :=
    _fallback_conversion source_code source_platform target_platform filename in
  let c := Create system prompt in
  let k := creates t in
  _convert_single_file E source_code source_platform target_platform filename t
  = match answer_of (create E k system prompt) with
    | Returned code => (Returned (Some code), (t ++ [c])%list)
    | Raised _ =>
        match answer_of (create E (k + 1) system prompt) with
        | Returned code => (Returned (Some code), (t ++ [c; Sleep 2; c])%list)
        | Raised _ =>
            match answer_of (create E (k + 2) system prompt) with
            | Returned code =>
                (Returned (Some code), (t ++ [c; Sleep 2; c; Sleep 4; c])%list)
            | Raised _ =>
                (Returned (Some fallback), (t ++ [c; Sleep 2; c; Sleep 4; c])%list)
            end
        end
    end.
Proof.
  intros system prompt fallback c k. subst c k.
  unfold _convert_single_file. fold system prompt fallback.
  change (seq 0 max_retries) with [0; 1; 2].
  rewrite attempts_cons.
  destruct (answer_of (create E (creates t) system prompt)); [reflexivity|].
  change (0 <? max_retries - 1)%nat with true. cbv iota.
  rewrite attempts_cons, creates_app.
  change (creates [Create system prompt; Sleep 2]) with 1.
  rewrite <- !app_assoc. simpl app.
  destruct (answer_of (create E (creates t + 1) system prompt)); [reflexivity|].
  change (1 <? max_retries - 1)%nat with true. cbv iota.
  rewrite attempts_cons, creates_app.
  match goal with
  | |- context [creates t + creates ?l] => change (creates l) with 2
  end.
  rewrite <- !app_assoc. simpl app.
  destruct (answer_of (create E (creates t + 2) system prompt)); reflexivity.
Qed.

(** [_convert_single_file] never raises and never returns [None]. *)
Lemma convert_single_file_returns (E : env)
      (source_code source_platform target_platform filename : string) (t : trace) :
  exists code added,
    _convert_single_file E source_code source_platform target_platform filename t
    = (Returned (Some code), (t ++ added)%list)
    /\ open_reads added = 0.
Proof.
  rewrite convert_single_file_unfold.
  repeat match goal with
         | |- context [match answer_of ?o with _ => _ end] =>
             destruct (answer_of o)
         end; eexists; eexists; split; reflexivity.
Qed.

Lemma splitext_parts (p : string) :
  fst (splitext p) ++ snd (splitext p) = p.
Proof.
  assert (Htd : forall n s, take n s ++ drop n s = s).
  { induction n as [|n IH]; intros [|a s]; simpl; try reflexivity.
    now rewrite IH. }
  unfold splitext.
  destruct (rfind "." p) as [dotIndex|]; simpl.
  - match goal with |- context [if ?b then _ else _] => destruct b end; simpl.
    + apply Htd.
    + induction p; simpl; congruence.
  - induction p; simpl; congruence.
Qed.

(** What one iteration of [convert_files] appends. *)
Lemma convert_entry_appends (E : env) (source_platform target_platform : string)
      (acc : list (string * option string)) (file_path relative_path : string)
      (t t' : trace) (res : list (string * option string)) :
  convert_entry E source_platform target_platform acc (file_path, relative_path) t
  = (Returned res, t') ->
  exists name content,
    res = (acc ++ [(name, content)])%list
    /\ match read E (open_reads t) file_path with
       | Returned source_code =>
           name = _get_converted_filename relative_path source_platform target_platform
       | Raised msg =>
           name = relative_path
           /\ exists original_code,
               content = Some (_get_error_comment msg target_platform
                                 ++ nl ++ nl ++ original_code)
       end.
Proof.
  unfold convert_entry, try_except, bind at 1, open_read.
  destruct (read E (open_reads t) file_path) as [source_code|msg].
  - destruct (convert_single_file_returns E source_code source_platform
                target_platform relative_path (t ++ [OpenRead file_path])%list)
      as [code [added [Hc _]]].
    unfold bind. rewrite Hc. unfold ret. intros H. injection H as <- <-.
    eauto.
  - unfold bind.
    destruct (read E (open_reads (t ++ [OpenRead file_path])%list) file_path)
      as [original_code|msg']; [|discriminate].
    unfold ret. intros H. injection H as <- <-.
    eexists. eexists. split; [reflexivity|]. split; [reflexivity|].
    now exists original_code.
Qed.

(** The relation between an entry and its result that every iteration
    establishes. *)
Definition result_of (E : env) (source_platform target_platform : string)
           (entry : string * string) (res : string * option string) : Prop :=
  exists k,
    match read E k (fst entry) with
    | Returned _ =>
        fst res = _get_converted_filename (snd entry) source_platform target_platform
    | Raised msg =>
        fst res = snd entry
        /\ exists original_code,
            snd res = Some (_get_error_comment msg target_platform
                              ++ nl ++ nl ++ original_code)
    end.

Lemma convert_loop_results (E : env) (source_platform target_platform : string)
      (extracted_files : list (string * string)) :
  forall (acc : list (string * option string)) (t t' : trace)
         (results : list (string * option string)),
    convert_loop E source_platform target_platform extracted_files acc t
    = (Returned results, t') ->
    exists rs, results = (acc ++ rs)%list
               /\ Forall2 (result_of E source_platform target_platform)
                          extracted_files rs.
Proof.
  induction extracted_files as [|[file_path relative_path] rest IH];
    intros acc t t' results H.
  - simpl in H. unfold ret in H. injection H as <- <-.
    exists []. split; [now rewrite app_nil_r | constructor].
  - cbn [convert_loop] in H. unfold bind at 1 in H.
    destruct (convert_entry E source_platform target_platform acc
                            (file_path, relative_path) t)
      as [[res|msg] t1] eqn:He; [|discriminate].
    apply convert_entry_appends in He.
    destruct He as [name [content [-> Hname]]].
    apply IH in H. destruct H as [rs [-> Hrs]].
    exists ((name, content) :: rs). split; [now rewrite <- app_assoc|].
    constructor; [|assumption].
    exists (open_reads t). simpl.
    destruct (read E (open_reads t) file_path); assumption.
Qed.


End CodeConverterFacts.

(** ** The orchestrator: properties of the specification *)

Module Orchestrator.
Import Py CodeConverter CodeConverterFacts.

(** The text of a staged file, by its path. *)
Definition source_text (file : string) : string := "// source of " ++ file.

(** Every staged file is readable; the capability always raises. *)
Definition E_down : env :=
  {| read := fun _ file => Returned (source_text file);
     create := fun _ _ _ => Raised "Connection error." |}.

(** Every staged file is readable; the capability always answers with the
    empty string. *)
Definition E_empty : env :=
  {| read := fun _ file => Returned (source_text file);
     create := fun _ _ _ => Returned (Some "") |}.

(** The first read of a staged file raises and the later ones succeed;
    the capability answers. *)
Definition E_flaky_read : env :=
  {| read := fun k file =>
               if (k =? 0)%nat then Raised "[Errno 5] Input/output error"
               else Returned (source_text file);
     create := fun _ _ _ => Returned (Some "import Foundation") |}.

Definition two_entries : list (string * string) :=
  [ ("/tmp/c1/app/MainActivity.java", "app/MainActivity.java");
    ("/tmp/c2/app/activity_main.xml", "app/activity_main.xml") ].



(** C5: one call of [_convert_single_file] calls the capability once, or
    twice with a sleep of 2 in between, or three times with sleeps of 2
    and 4 in between, and always returns a text; exchanging a reply for
    another one, both being a raised error or an empty answer, changes
    neither the result nor the calls and sleeps; and when the three
    replies are such failures the result is the fallback text. *)
Theorem bounded_retry_with_backoff (E : env)
        (source_code source_platform target_platform filename : string)
        (t : trace) :
  let system := _get_system_prompt source_platform target_platform in
  let prompt :=
    _create_conversion_prompt source_code source_platform target_platform filename in
  let c := Create system prompt in
  (exists code added,
      _convert_single_file E source_code source_platform target_platform filename t
      = (Returned (Some code), (t ++ added)%list)
      /\ (added = [c] \/ added = [c; Sleep 2; c]
          \/ added = [c; Sleep 2; c; Sleep 4; c])
      /\ creates added <= 3)
  /\ (forall E',
        (forall k s u,
            create E' k s u = create E k s u
            \/ (fails (create E' k s u) = true /\ fails (create E k s u) = true)) ->
        _convert_single_file E' source_code source_platform target_platform filename t
        = _convert_single_file E source_code source_platform target_platform filename t)
  /\ (fails (create E (creates t) system prompt) = true ->
      fails (create E (creates t + 1) system prompt) = true ->
      fails (create E (creates t + 2) system prompt) = true ->
      _convert_single_file E source_code source_platform target_platform filename t
      = (Returned (Some (_fallback_conversion source_code source_platform
                           target_platform filename)),
         (t ++ [c; Sleep 2; c; Sleep 4; c])%list)).
Proof.
  intros system prompt c. split; [|split].
  - rewrite convert_single_file_unfold. fold system prompt c.
    destruct (answer_of (create E (creates t) system prompt));
      [eexists; exists [c]; repeat split; [tauto | unfold creates; simpl; lia]|].
    destruct (answer_of (create E (creates t + 1) system prompt));
      [eexists; exists [c; Sleep 2; c]; repeat split;
       [tauto | unfold creates; simpl; lia]|].
    destruct (answer_of (create E (creates t + 2) system prompt));
      eexists; exists [c; Sleep 2; c; Sleep 4; c]; repeat split;
      solve [tauto | unfold creates; simpl; lia].
  - intros E' Hsame. rewrite !convert_single_file_unfold. fold system prompt c.
    assert (Hans : forall k,
               answer_of (create E' k system prompt)
               = answer_of (create E k system prompt)
               \/ exists m m', answer_of (create E' k system prompt) = Raised m
                               /\ answer_of (create E k system prompt) = Raised m').
    { intros k. destruct (Hsame k system prompt) as [->|[H1 H2]]; [now left|].
      right. apply fails_answer in H1, H2.
      destruct H1 as [m H1], H2 as [m' H2]. eauto. }
    destruct (Hans (creates t)) as [->|[m [m' [-> ->]]]];
      [destruct (answer_of (create E (creates t) system prompt));
       [reflexivity|]|];
      (destruct (Hans (creates t + 1)) as [->|[m1 [m1' [-> ->]]]];
       [destruct (answer_of (create E (creates t + 1) system prompt));
        [reflexivity|]|];
       (destruct (Hans (creates t + 2)) as [->|[m2 [m2' [-> ->]]]];
        [destruct (answer_of (create E (creates t + 2) system prompt))|];
        reflexivity)).
  - intros H0 H1 H2. rewrite convert_single_file_unfold. fold system prompt c.
    apply fails_answer in H0, H1, H2.
    destruct H0 as [m0 ->], H1 as [m1 ->], H2 as [m2 ->]. reflexivity.
Qed.

Lemma bounded_retry_with_backoff_witness :
  _convert_single_file E_empty "class Main {}" "android_java" "ios_swift" "Main.java" []
  = _convert_single_file E_down "class Main {}" "android_java" "ios_swift" "Main.java" []
  /\ fst (_convert_single_file E_empty "class Main {}" "android_java" "ios_swift"
                               "Main.java" [])
     = Returned (Some (_fallback_conversion "class Main {}" "android_java"
                                            "ios_swift" "Main.java"))
  /\ sleeps (snd (_convert_single_file E_empty "class Main {}" "android_java"
                                       "ios_swift" "Main.java" []))
     = [2; 4].
Proof.
  destruct (bounded_retry_with_backoff E_down "class Main {}" "android_java"
              "ios_swift" "Main.java" []) as [_ [Hsame _]].
  destruct (bounded_retry_with_backoff E_empty "class Main {}" "android_java"
              "ios_swift" "Main.java" []) as [_ [_ Hfb]].
  split; [|split].
  - apply Hsame. intros k s u. right. split; reflexivity.
  - now rewrite (Hfb eq_refl eq_refl eq_refl).
  - now rewrite (Hfb eq_refl eq_refl eq_refl).
Defined.




End Orchestrator.

(** ** The assembler: properties of the specification *)

Module Assembler.
Import Py CodeConverter FileHandler App.

(** Whether the handler writes a single file depends on the number of
    conversion results and on the number of uploads only. *)
Lemma save_converted_single (FS : storage) (is_multiple_files : bool)
      (filename source_platform target_platform : string)
      (converted_files : list (string * option string))
      (preserve_files : list (string * string))
      (output_filename : string) (is_single_file : bool) (saved : artifact) :
  save_converted FS is_multiple_files filename source_platform target_platform
                 converted_files preserve_files
  = Returned (RedirectPreview output_filename is_single_file saved) ->
  is_single_file = (List.length converted_files =? 1)%nat && negb is_multiple_files
  /\ match saved with
     | SingleFile _ _ => is_single_file = true
     | ZipOutput _ _ => is_single_file = false
     end.
Proof.
  unfold save_converted.
  destruct ((List.length converted_files =? 1)%nat && negb is_multiple_files).
  - destruct (hd ("", None) converted_files) as [converted_filename converted_content].
    destruct (open_write FS _); [|discriminate].
    intros H. injection H as <- <- <-. auto.
  - unfold create_zip. destruct (open_write FS _); [|discriminate].
    destruct (write_converted converted_files []); [|discriminate].
    intros H. injection H as <- <- <-. auto.
Qed.

(** The members [create_zip] writes: the converted files in order, then the
    preserved files whose bytes could be read, under their relative
    paths. *)
Lemma write_converted_members (converted_files : list (string * option string)) :
  forall members written,
    write_converted converted_files members = Returned written ->
    exists added,
      written = (members ++ added)%list
      /\ Forall2 (fun c m => fst m = fst c /\ snd c = Some (snd m))
                 converted_files added.
Proof.
  induction converted_files as [|[name [content|]] rest IH];
    intros members written H; simpl in H; [| |discriminate].
  - injection H as <-. exists []. split; [now rewrite app_nil_r | constructor].
  - apply IH in H. destruct H as [added [-> Hadded]].
    exists ((name, content) :: added). split; [now rewrite <- app_assoc|].
    constructor; [split; reflexivity | assumption].
Qed.

Lemma add_preserved_members (FS : storage) (preserve_files : list (string * string)) :
  forall members,
    add_preserved FS members preserve_files
    = (members
         ++ flat_map (fun entry =>
                        match staged_bytes FS (fst entry) with
                        | Returned bytes => [(snd entry, bytes)]
                        | Raised _ => []
                        end)
                     preserve_files)%list.
Proof.
  unfold add_preserved.
  induction preserve_files as [|[file_path relative_path] rest IH];
    intros members; simpl.
  - now rewrite app_nil_r.
  - rewrite IH. destruct (staged_bytes FS file_path); simpl.
    + now rewrite <- app_assoc.
    + reflexivity.
Qed.

Lemma create_zip_members (FS : storage)
      (converted_files : list (string * option string))
      (output_path : string) (preserve_files : list (string * string))
      (saved : artifact) :
  create_zip FS converted_files output_path preserve_files = Returned saved ->
  exists added,
    saved = ZipOutput output_path
              (added
                 ++ flat_map (fun entry =>
                                match staged_bytes FS (fst entry) with
                                | Returned bytes => [(snd entry, bytes)]
                                | Raised _ => []
                                end)
                             preserve_files)%list
    /\ Forall2 (fun c m => fst m = fst c /\ snd c = Some (snd m))
               converted_files added.
Proof.
  unfold create_zip. destruct (open_write FS output_path); [|discriminate].
  destruct (write_converted converted_files []) as [members|] eqn:Hw;
    [|discriminate].
  intros H. injection H as <-.
  apply write_converted_members in Hw. destruct Hw as [added [-> Hadded]].
  exists added. split; [|assumption].
  now rewrite add_preserved_members.
Qed.

(** An archive that holds one Swift source file and the property list of
    the application; both are staged without error. *)
Definition swift_archive : zip_file :=
  Opened
    [ {| file_path := "Main.swift";
         code_stage := Extracted "/tmp/c0/Main.swift" true 18 true;
         preserve_stage := Returned "/tmp/p0/Main.swift" |};
      {| file_path := "Info.plist";
         code_stage := Extracted "/tmp/c1/Info.plist" true 42 true;
         preserve_stage := Returned "/tmp/p1/Info.plist" |} ].

(** The request that uploads that archive alone. *)
Definition swift_request : request :=
  {| code_file := [ {| filename := "app.zip"; secure_name := "app.zip";
                       save := Returned tt; archive := swift_archive |} ];
     source_platform := "ios_swift";
     target_platform := "android_kotlin";
     conversion_type := "full_project" |}.

(** Staged files are readable and the capability answers. *)
Definition E_answers : env :=
  {| read := fun _ _ => Returned "import UIKit";
     create := fun _ _ _ => Returned (Some "class Main") |}.

(** Every output path can be written and every staged file copied. *)
Definition FS_ok : storage :=
  {| open_write := fun _ => Returned tt;
     staged_bytes := fun _ => Returned "<plist/>" |}.

(** C4 does not hold of the code: the handler writes a single file
    whenever there is one conversion result and one upload, archive or
    not.  For the upload of one archive that holds [Main.swift] and
    [Info.plist], classification yields one code entry and one preserve
    entry, and the handler writes the single file [Main.kt]; the preserve
    entry is in no output. *)
Theorem single_archive_upload_yields_single_file :
  single_non_archive_input swift_request = false
  /\ extract_project_files swift_archive "ios_swift"
     = Returned {| code_files := [("/tmp/c0/Main.swift", "Main.swift")];
                   preserved := [("/tmp/p1/Info.plist", "Info.plist")];
                   skipped := []; errors := [] |}
  /\ fst (convert_code E_answers FS_ok swift_request [])
     = Returned
         (RedirectPreview
            "converted_ios_swift_to_android_kotlin_Main.kt" true
            (SingleFile "converted/converted_ios_swift_to_android_kotlin_Main.kt"
                        "class Main")).
Proof. repeat split. Qed.

End Assembler.


(** ** More facts about the string primitives *)

Module PyMore.
Import Py PyFacts.

Fixpoint all_chars (P : ascii -> bool) (s : string) : bool :=
  match s with
  | EmptyString => true
  | String a s' => P a && all_chars P s'
  end.

Lemma append_nil_r (s : string) : s ++ "" = s.
Proof. induction s as [|a s IH]; simpl; [reflexivity | now rewrite IH]. Qed.

Lemma length_append (a b : string) :
  String.length (a ++ b) = String.length a + String.length b.
Proof. induction a as [|x a IH]; simpl; [reflexivity | now rewrite IH]. Qed.

Lemma lower_append (a b : string) : lower (a ++ b) = lower a ++ lower b.
Proof.
  unfold lower. induction a as [|x a IH]; simpl; [reflexivity | now rewrite IH].
Qed.


Lemma count_append (c : ascii) (a b : string) :
  count c (a ++ b) = count c a + count c b.
Proof. induction a as [|x a IH]; simpl; [reflexivity | rewrite IH; lia]. Qed.

Lemma startswith_refl_append (p s : string) : startswith (p ++ s) p = true.
Proof.
  induction p as [|b p IH]; simpl; [now destruct s|].
  now rewrite Ascii.eqb_refl, IH.
Qed.

Lemma startswith_append_l (s p b : string) :
  startswith s p = true -> startswith (s ++ b) p = true.
Proof.
  revert s. induction p as [|x p IH]; intros s H.
  - now destruct (s ++ b).
  - destruct s as [|a s]; simpl in H; [discriminate|]. simpl.
    apply andb_true_iff in H. destruct H as [H1 H2].
    now rewrite H1, (IH _ H2).
Qed.

Lemma startswith_iff (s p : string) :
  startswith s p = true <-> exists rest, s = p ++ rest.
Proof.
  split.
  - revert s. induction p as [|x p IH]; intros s H.
    + now exists s.
    + destruct s as [|a s]; simpl in H; [discriminate|].
      apply andb_true_iff in H. destruct H as [H1 H2].
      apply Ascii.eqb_eq in H1. subst a.
      destruct (IH _ H2) as [rest ->]. now exists rest.
  - intros [rest ->]. apply startswith_refl_append.
Qed.

Lemma contains_startswith (s p : string) :
  startswith s p = true -> contains s p = true.
Proof. intros H. destruct s; cbn [contains]; rewrite H; reflexivity. Qed.

Lemma contains_append_r (a s p : string) :
  contains s p = true -> contains (a ++ s) p = true.
Proof.
  intros H. induction a as [|x a IH]; simpl; [assumption|].
  rewrite IH. apply orb_true_r.
Qed.

Lemma contains_append_l (s b p : string) :
  contains s p = true -> contains (s ++ b) p = true.
Proof.
  induction s as [|a s IH]; cbn [contains]; intros H.
  - rewrite orb_false_r in H.
    apply contains_startswith. apply (startswith_append_l "" p b H).
  - apply orb_true_iff in H. destruct H as [H|H].
    + apply contains_startswith. apply (startswith_append_l _ p b H).
    + change (String a s ++ b) with (String a (s ++ b)). cbn [contains].
      rewrite (IH H). apply orb_true_r.
Qed.

Lemma contains_iff (s p : string) :
  contains s p = true <-> exists a b, s = a ++ p ++ b.
Proof.
  split.
  - induction s as [|x s IH]; cbn [contains]; intros H.
    + rewrite orb_false_r in H.
      apply startswith_iff in H. destruct H as [rest ->]. now exists "", rest.
    + apply orb_true_iff in H. destruct H as [H|H].
      * apply startswith_iff in H. destruct H as [rest ->].
        now exists "", rest.
      * destruct (IH H) as [a [b ->]]. now exists (String x a), b.
  - intros [a [b ->]]. apply contains_append_r, contains_startswith,
      startswith_refl_append.
Qed.

Lemma endswith_append_r (a s p : string) :
  endswith s p = true -> endswith (a ++ s) p = true.
Proof.
  intros H. induction a as [|x a IH]; simpl; [assumption|].
  rewrite IH. apply orb_true_r.
Qed.

Lemma endswith_refl (s : string) : endswith s s = true.
Proof. destruct s; simpl; now rewrite ?String.eqb_refl, ?Ascii.eqb_refl. Qed.

Lemma endswith_iff (s p : string) :
  endswith s p = true <-> exists a, s = a ++ p.
Proof.
  split.
  - induction s as [|x s IH]; cbn [endswith]; intros H.
    + rewrite orb_false_r in H. apply String.eqb_eq in H. subst. now exists "".
    + apply orb_true_iff in H. destruct H as [H|H].
      * apply String.eqb_eq in H. subst. now exists "".
      * destruct (IH H) as [a ->]. now exists (String x a).
  - intros [a ->]. apply endswith_append_r, endswith_refl.
Qed.

Lemma endswith_contains (s p : string) :
  endswith s p = true -> contains s p = true.
Proof.
  intros H. apply endswith_iff in H. destruct H as [a ->].
  apply contains_iff. exists a, "". now rewrite append_nil_r.
Qed.

(** Every character of a part of a string is a character of the string. *)
Lemma all_chars_append (P : ascii -> bool) (a b : string) :
  all_chars P (a ++ b) = all_chars P a && all_chars P b.
Proof.
  induction a as [|x a IH]; simpl; [reflexivity|].
  now rewrite IH, andb_assoc.
Qed.

Lemma all_chars_contains (P : ascii -> bool) (s p : string) :
  all_chars P s = true -> contains s p = true -> all_chars P p = true.
Proof.
  intros Hs Hc. apply contains_iff in Hc. destruct Hc as [a [b ->]].
  rewrite !all_chars_append in Hs.
  apply andb_true_iff in Hs. destruct Hs as [_ Hs].
  apply andb_true_iff in Hs. tauto.
Qed.

Lemma lower_ascii_not_upper (c : ascii) : is_upper (lower_ascii c) = false.
Proof. destruct c as [[] [] [] [] [] [] [] []]; reflexivity. Qed.

Lemma lower_no_upper (s : string) :
  all_chars (fun c => negb (is_upper c)) (lower s) = true.
Proof.
  unfold lower. induction s as [|x s IH]; simpl; [reflexivity|].
  now rewrite lower_ascii_not_upper, IH.
Qed.

(** [(a + c + b).split(c) == a.split(c) + b.split(c)] *)
Lemma split_append_sep (c : ascii) (a b : string) :
  split c (a ++ String c b) = (split c a ++ split c b)%list.
Proof.
  induction a as [|x a IH]; simpl.
  - now rewrite Ascii.eqb_refl.
  - rewrite IH. destruct (Ascii.eqb x c); [reflexivity|].
    pose proof (split_length c a) as Hl.
    destruct (split c a) as [|h t]; [discriminate | reflexivity].
Qed.

Lemma split_no_sep (c : ascii) (s : string) :
  count c s = 0 -> split c s = [s].
Proof.
  induction s as [|x s IH]; simpl; [reflexivity|].
  destruct (Ascii.eqb x c); [discriminate|].
  intros H. now rewrite (IH H).
Qed.


(** The last occurrence of a character. *)
Lemma rfind_none_count (c : ascii) (s : string) :
  rfind c s = None <-> count c s = 0.
Proof.
  induction s as [|x s IH]; simpl; [tauto|].
  destruct (rfind c s) as [i|].
  - split; [discriminate|]. intros H.
    assert (count c s = 0) by lia. apply IH in H0. discriminate.
  - destruct (Ascii.eqb x c); split; try discriminate; try reflexivity.
    intros _. now apply IH.
Qed.

Lemma rfind_after (c : ascii) (s : string) :
  forall i n, rfind c s = Some i -> i < n -> count c (drop n s) = 0.
Proof.
  induction s as [|x s IH]; intros i n H Hn; [discriminate|].
  destruct n as [|n]; [lia|]. simpl in *.
  destruct (rfind c s) as [j|] eqn:Hr.
  - injection H as <-. apply (IH j); [reflexivity | lia].
  - assert (Hc : count c s = 0) by now apply rfind_none_count.
    clear -Hc. revert n. induction s as [|y s IH]; intros [|n]; simpl in *;
      try reflexivity; try assumption.
    apply IH. destruct (Ascii.eqb y c); [discriminate | assumption].
Qed.

Lemma count_drop_le (c : ascii) (s : string) (n : nat) :
  count c (drop n s) <= count c s.
Proof.
  revert n. induction s as [|x s IH]; intros [|n]; simpl; try lia.
  specialize (IH n). lia.
Qed.

Lemma take_drop (n : nat) (s : string) : take n s ++ drop n s = s.
Proof.
  revert s. induction n as [|n IH]; intros [|a s]; simpl; try reflexivity.
  now rewrite IH.
Qed.

Lemma drop_append_length (a b : string) (n : nat) :
  drop (String.length a + n) (a ++ b) = drop n b.
Proof. induction a as [|x a IH]; simpl; [reflexivity | assumption]. Qed.

Lemma rfind_append (c : ascii) (a b : string) :
  rfind c (a ++ b)
  = match rfind c b with
    | Some i => Some (String.length a + i)
    | None => rfind c a
    end.
Proof.
  induction a as [|x a IH]; simpl.
  - now destruct (rfind c b).
  - rewrite IH. destruct (rfind c b); reflexivity.
Qed.

End PyMore.


(** ** The classifier: further properties read off the code *)

Module ClassifierMore.
Import Py PyFacts PyMore FileHandler FileHandlerFacts.

(** The rules of [_should_skip_file], as one disjunction. *)
Lemma skip_rules (p : string) :
  _should_skip_file p
  = mem (basename (lower p)) exact_names
    || existsb (pattern_hits (lower p)) skip_patterns
    || (6 <? path_depth p)%nat
    || existsb (fun pattern => contains (lower p) pattern) suspicious_patterns.
Proof.
  unfold _should_skip_file.
  destruct (mem _ exact_names); [reflexivity|].
  destruct (existsb (pattern_hits (lower p)) skip_patterns); [reflexivity|].
  destruct (6 <? path_depth p)%nat; [reflexivity|].
  destruct (existsb _ suspicious_patterns); reflexivity.
Qed.

(** *** [get_file_count] against [extract_code_files] *)

Definition counted (valid_extensions : list string) (e : zip_entry) : bool :=
  negb (endswith (file_path e) "/")
  && mem (lower (path_suffix (file_path e))) valid_extensions.

Lemma get_file_count_filter (namelist : list zip_entry) (platform : string) :
  get_file_count (Opened namelist) platform
  = List.length (filter (counted (code_extensions platform)) namelist).
Proof.
  unfold get_file_count.
  assert (H : forall l n,
             fold_left
               (fun count e =>
                  if negb (endswith (file_path e) "/") then
                    if mem (lower (path_suffix (file_path e)))
                           (code_extensions platform)
                    then count + 1 else count
                  else count) l n
             = n + List.length (filter (counted (code_extensions platform)) l)).
  { induction l as [|e l IH]; intros n; simpl; [lia|].
    rewrite IH. unfold counted.
    destruct (negb (endswith (file_path e) "/")); simpl; [|lia].
    destruct (mem _ (code_extensions platform)); simpl; lia. }
  apply (H namelist 0).
Qed.

Lemma contribution_counted (valid : list string) (e : zip_entry) :
  List.length (extracted_files (contribution valid e))
  + List.length (error_files (contribution valid e))
  + (if counted valid e && _should_skip_file (file_path e) then 1 else 0)
  = if counted valid e then 1 else 0.
Proof.
  unfold contribution, code_step, counted.
  destruct (endswith (file_path e) "/"); [reflexivity|].
  destruct (_should_skip_file (file_path e));
    [destruct (mem _ valid); reflexivity|].
  destruct (mem _ valid); [|reflexivity].
  destruct (code_stage e) as [m|m|path ex sz rd]; try reflexivity.
  destruct (ex && (0 <? sz)%nat); [destruct rd|]; reflexivity.
Qed.

(** X1: on an archive that opens, for a supported platform,
    [get_file_count] is the number of code entries plus the number of error
    paths plus the number of members that carry a code extension but are
    matched by a skip rule: it counts the files by extension alone, so it is
    never less than what [extract_code_files] extracts. *)
Theorem file_count_splits (namelist : list zip_entry) (platform : string)
        (x : extraction) :
  extract_code_files (Opened namelist) platform = Returned x ->
  get_file_count (Opened namelist) platform
  = List.length (extracted_files x) + List.length (error_files x)
    + List.length
        (filter (fun e => counted (code_extensions platform) e
                          && _should_skip_file (file_path e))
                namelist)
  /\ List.length (extracted_files x) <= get_file_count (Opened namelist) platform.
Proof.
  intros H. unfold extract_code_files in H.
  destruct (code_extensions platform) as [|ext exts] eqn:Hv; [discriminate|].
  injection H as <-.
  rewrite get_file_count_filter, Hv.
  assert (Heq : List.length (filter (counted (ext :: exts)) namelist)
                = List.length (extracted_files
                                 (fold_left (code_step (ext :: exts)) namelist no_files))
                  + List.length (error_files
                                   (fold_left (code_step (ext :: exts)) namelist no_files))
                  + List.length
                      (filter (fun e => counted (ext :: exts) e
                                        && _should_skip_file (file_path e))
                              namelist)).
  { induction namelist as [|e l IH]; [reflexivity|].
    rewrite fold_code_step_cons.
    pose proof (contribution_counted (ext :: exts) e) as Hc.
    cbn [filter]. unfold merge. cbn [extracted_files error_files].
    rewrite !length_app.
    destruct (counted (ext :: exts) e);
      destruct (_should_skip_file (file_path e)); cbn [andb] in *;
      cbn [List.length]; lia. }
  split; [exact Heq | lia].
Qed.

Lemma file_count_splits_witness :
  get_file_count (Opened Classifier.sample_namelist) "android_java" = 7
  /\ 2 <= get_file_count (Opened Classifier.sample_namelist) "android_java".
Proof.
  destruct (file_count_splits Classifier.sample_namelist "android_java" _ eq_refl)
    as [Heq Hle].
  split; [rewrite Heq; reflexivity | exact Hle].
Defined.

(** X2: [get_file_count] does not raise where [extract_code_files] does: for
    a platform without code extensions it is 0 on every archive, and it is 0
    on an archive that cannot be opened. *)
Theorem file_count_of_unsupported_platform (zip : zip_file) (platform : string) :
  code_extensions platform = [] ->
  get_file_count zip platform = 0
  /\ get_file_count BadZipFile platform = 0
  /\ extract_code_files zip platform
     = Raised ("Unsupported platform: " ++ platform).
Proof.
  intros Hv. split; [|split].
  - destruct zip as [| |namelist]; try reflexivity.
    rewrite get_file_count_filter, Hv.
    induction namelist as [|e l IH]; [reflexivity|].
    simpl. unfold counted at 1. simpl. now rewrite andb_false_r.
  - reflexivity.
  - unfold extract_code_files. now rewrite Hv.
Qed.

Lemma file_count_of_unsupported_platform_witness :
  get_file_count (Opened Classifier.sample_namelist) "flutter_dart" = 0
  /\ extract_code_files (Opened Classifier.sample_namelist) "flutter_dart"
     = Raised "Unsupported platform: flutter_dart".
Proof.
  destruct (file_count_of_unsupported_platform
              (Opened Classifier.sample_namelist) "flutter_dart" eq_refl)
    as [H0 [_ Hr]].
  split; [exact H0 | exact Hr].
Defined.

(** X3: every code entry that [extract_code_files] returns passes
    [validate_file_platform] for the same platform, is not a directory, and
    its path is not among the skipped paths. *)
Theorem code_entries_validated (namelist : list zip_entry) (platform : string)
        (x : extraction) (staged p : string) :
  extract_code_files (Opened namelist) platform = Returned x ->
  In (staged, p) (extracted_files x) ->
  validate_file_platform p platform = true
  /\ endswith p "/" = false
  /\ ~ In p (skipped_files x).
Proof.
  intros H Hin. unfold extract_code_files in H. unfold validate_file_platform.
  destruct (code_extensions platform) as [|ext exts]; [discriminate|].
  injection H as <-.
  apply extracted_fold in Hin.
  destruct Hin as [e [_ [_ [Hd [Hs [Hv _]]]]]].
  repeat split; try assumption.
  intros Hsk. apply skipped_fold in Hsk.
  destruct Hsk as [e' [_ [_ [_ Hs']]]]. congruence.
Qed.

Lemma code_entries_validated_witness :
  validate_file_platform "app/activity_main.xml" "android_java" = true
  /\ endswith "app/activity_main.xml" "/" = false.
Proof.
  destruct (code_entries_validated Classifier.sample_namelist "android_java"
              _ "/tmp/c2/app/activity_main.xml" "app/activity_main.xml" eq_refl)
    as [Hv [Hd _]].
  - simpl. right. left. reflexivity.
  - split; assumption.
Defined.

(** *** The preserve list *)

Lemma preserve_step_In (acc : list (string * string)) (e : zip_entry)
      (staged p : string) :
  In (staged, p) (preserve_step acc e)
  <-> In (staged, p) acc
      \/ (file_path e = p
          /\ endswith p "/" = false
          /\ should_preserve p = true
          /\ _should_skip_file p = false
          /\ preserve_stage e = Returned staged).
Proof.
  unfold preserve_step.
  destruct (endswith (file_path e) "/") eqn:Hd;
    [split; [tauto | intros [H|[<- [H _]]]; [assumption | congruence]]|].
  destruct (should_preserve (file_path e)) eqn:Hp; cbn [andb];
    [|split; [tauto | intros [H|[<- [_ [H _]]]]; [assumption | congruence]]].
  destruct (_should_skip_file (file_path e)) eqn:Hs; cbn [negb];
    [split; [tauto | intros [H|[<- [_ [_ [H _]]]]]; [assumption | congruence]]|].
  destruct (preserve_stage e) as [path|msg] eqn:Hst;
    [|split; [tauto | intros [H|[<- [_ [_ [_ H]]]]]; [assumption | congruence]]].
  rewrite in_app_iff. split.
  - intros [H|[H|[]]]; [now left|].
    injection H as <- <-. right. repeat split; assumption.
  - intros [H|[<- [_ [_ [_ H]]]]]; [now left|].
    right. left. congruence.
Qed.

Lemma preserved_fold (namelist : list zip_entry) :
  forall (acc : list (string * string)) (staged p : string),
    In (staged, p) (fold_left preserve_step namelist acc)
    <-> In (staged, p) acc
        \/ exists e, In e namelist /\ file_path e = p
                     /\ endswith p "/" = false
                     /\ should_preserve p = true
                     /\ _should_skip_file p = false
                     /\ preserve_stage e = Returned staged.
Proof.
  induction namelist as [|e l IH]; intros acc staged p.
  - simpl. split; [tauto | intros [H|[e [[] _]]]; assumption].
  - cbn [fold_left]. rewrite IH, preserve_step_In. split.
    + intros [[H|H]|[e' [Hin H]]].
      * now left.
      * right. exists e. split; [now left | assumption].
      * right. exists e'. split; [now right | assumption].
    + intros [H|[e' [[->|Hin] H]]].
      * left. now left.
      * left. now right.
      * right. exists e'. auto.
Qed.

Lemma basename_contains (s p : string) :
  contains (basename s) p = true -> contains s p = true.
Proof.
  unfold basename. destruct (rfind "/" s) as [i|]; [|tauto].
  intros H. rewrite <- (take_drop (i + 1) s). now apply contains_append_r.
Qed.

Lemma preserve_pattern_kind (pattern : string) :
  In pattern preserve_files ->
  pattern = "androidmanifest.xml" \/ pattern = "info.plist"
  \/ In pattern substring_patterns.
Proof.
  intros H. unfold preserve_files in H. simpl in H.
  decompose [or] H; subst; try contradiction;
    first [ left; reflexivity
          | right; left; reflexivity
          | right; right; apply mem_In; reflexivity ].
Qed.

(** X4: the preserve list of an archive is made of exactly the members that
    are not directories, match the preserve list, are matched by no skip
    rule and are staged without error; since every image and media suffix
    is also a skip pattern, the path of a preserved entry always contains
    [androidmanifest.xml] or [info.plist], in any letter case. *)
Theorem preserve_list_characterised (namelist : list zip_entry)
        (staged p : string) :
  (In (staged, p) (_extract_preserve_files (Opened namelist))
   <-> exists e, In e namelist /\ file_path e = p
                 /\ endswith p "/" = false
                 /\ should_preserve p = true
                 /\ _should_skip_file p = false
                 /\ preserve_stage e = Returned staged)
  /\ (In (staged, p) (_extract_preserve_files (Opened namelist)) ->
      contains (lower p) "androidmanifest.xml" = true
      \/ contains (lower p) "info.plist" = true).
Proof.
  assert (Hiff : In (staged, p) (_extract_preserve_files (Opened namelist))
                 <-> exists e, In e namelist /\ file_path e = p
                               /\ endswith p "/" = false
                               /\ should_preserve p = true
                               /\ _should_skip_file p = false
                               /\ preserve_stage e = Returned staged).
  { unfold _extract_preserve_files. rewrite preserved_fold. simpl. tauto. }
  split; [exact Hiff|].
  intros Hin. apply Hiff in Hin.
  destruct Hin as [e [_ [_ [_ [Hpr [Hs _]]]]]].
  unfold should_preserve in Hpr. apply existsb_exists in Hpr.
  destruct Hpr as [pattern [Hpat Hhit]].
  assert (Hc : contains (lower p) pattern = true).
  { apply orb_true_iff in Hhit. destruct Hhit as [H|H].
    - now apply endswith_contains.
    - now apply basename_contains. }
  destruct (preserve_pattern_kind pattern Hpat) as [->|[->|Hsub]];
    [now left | now right |].
  rewrite (substring_pattern_skipped p pattern Hsub Hc) in Hs. discriminate.
Qed.

Lemma preserve_list_characterised_witness :
  In ("/tmp/p1/Info.plist", "Info.plist")
     (_extract_preserve_files Assembler.swift_archive)
  /\ (contains (lower "Info.plist") "androidmanifest.xml" = true
      \/ contains (lower "Info.plist") "info.plist" = true).
Proof.
  assert (Hin : In ("/tmp/p1/Info.plist", "Info.plist")
                   (_extract_preserve_files Assembler.swift_archive))
    by (simpl; now left).
  split; [exact Hin|].
  exact (proj2 (preserve_list_characterised _ "/tmp/p1/Info.plist" "Info.plist") Hin).
Defined.

(** *** Patterns that cannot match *)

Lemma upper_needle_absent (l needle : string) :
  all_chars (fun c => negb (is_upper c)) needle = false ->
  all_chars (fun c => negb (is_upper c)) l = true ->
  contains l needle = false.
Proof.
  intros Hn Hl. destruct (contains l needle) eqn:Hc; [|reflexivity].
  rewrite (all_chars_contains _ l needle Hl Hc) in Hn. discriminate.
Qed.

Lemma upper_pattern_dead (p pattern : string) :
  all_chars (fun c => negb (is_upper c)) (drop_last pattern ++ "/") = false ->
  all_chars (fun c => negb (is_upper c)) pattern = false ->
  pattern_hits (lower p) pattern = false.
Proof.
  intros Hfolder Hpat. unfold pattern_hits.
  pose proof (lower_no_upper p) as Hl.
  destruct (endswith pattern "/").
  - apply orb_false_iff. split.
    + apply upper_needle_absent; [exact Hfolder|].
      change ("/" ++ lower p ++ "/") with (String "/" (lower p ++ "/")).
      cbn [all_chars]. rewrite all_chars_append, Hl. reflexivity.
    + destruct (startswith (lower p) (drop_last pattern ++ "/")) eqn:Hs;
        [|reflexivity].
      apply contains_startswith in Hs.
      rewrite (upper_needle_absent _ _ Hfolder Hl) in Hs. discriminate.
  - apply orb_false_iff. split.
    + destruct (endswith (lower p) pattern) eqn:He; [|reflexivity].
      apply endswith_contains in He.
      rewrite (upper_needle_absent _ _ Hpat Hl) in He. discriminate.
    + now apply upper_needle_absent.
Qed.

(** X5: four skip patterns are written with capital letters and are looked
    for in the lowercased path, so they match no path at all: [.DS_Store],
    [Thumbs.db], [Pods/] and [DerivedData/].  A source file below [Pods/] is
    therefore not skipped by that pattern. *)
Theorem capitalised_patterns_never_match :
  incl [".DS_Store"; "Thumbs.db"; "Pods/"; "DerivedData/"] skip_patterns
  /\ Forall (fun pattern => forall p, pattern_hits (lower p) pattern = false)
            [".DS_Store"; "Thumbs.db"; "Pods/"; "DerivedData/"]
  /\ _should_skip_file "Pods/Alamofire/Session.swift" = false.
Proof.
  split; [|split; [|reflexivity]].
  - intros x Hx. simpl in Hx.
    decompose [or] Hx; subst; try contradiction; apply mem_In; reflexivity.
  - repeat constructor; intros p; apply upper_pattern_dead; reflexivity.
Qed.

(** *** Folder patterns *)

Lemma split_head (c : ascii) (s : string) :
  exists post, s ++ String c "" = hd "" (split c s) ++ String c post.
Proof.
  induction s as [|a s IH]; simpl.
  - now exists "".
  - destruct (Ascii.eqb a c) eqn:Ha.
    + apply Ascii.eqb_eq in Ha. subst a. now exists (s ++ String c "").
    + destruct IH as [post IH].
      pose proof (split_length c s) as Hl.
      destruct (split c s) as [|h t]; [discriminate|]. simpl in *.
      exists post. now rewrite IH.
Qed.

Lemma split_tail (c : ascii) (s x : string) :
  In x (tl (split c s)) ->
  exists pre post, s ++ String c "" = pre ++ String c (x ++ String c post).
Proof.
  induction s as [|a s IH]; simpl; [tauto|].
  destruct (Ascii.eqb a c) eqn:Ha.
  - apply Ascii.eqb_eq in Ha. subst a. simpl. intros Hin.
    pose proof (split_head c s) as [post Hh].
    destruct (split c s) as [|h t]; [destruct Hin|].
    destruct Hin as [<-|Hin].
    + exists "", post. simpl in *. now rewrite Hh.
    + destruct (IH Hin) as [pre [post' ->]]. now exists (String c pre), post'.
  - pose proof (split_length c s) as Hl.
    destruct (split c s) as [|h t]; [discriminate|]. simpl in *.
    intros Hin. destruct (IH Hin) as [pre [post ->]].
    now exists (String a pre), post.
Qed.

(** A component of a path is found between two separators of the path
    written between two separators. *)
Lemma component_between_separators (c : ascii) (s x : string) :
  In x (split c s) ->
  contains (String c (s ++ String c "")) (String c (x ++ String c "")) = true.
Proof.
  intros Hin. apply contains_iff.
  pose proof (split_head c s) as [post Hh].
  pose proof (split_length c s) as Hl.
  destruct (split c s) as [|h t] eqn:Hs; [discriminate|].
  destruct Hin as [<-|Hin].
  - exists "", post. simpl in *. rewrite Hh.
    now rewrite append_assoc.
  - assert (Ht : In x (tl (split c s))) by now rewrite Hs.
    destruct (split_tail c s x Ht) as [pre [post' ->]].
    exists (String c pre), post'. simpl. f_equal. f_equal. f_equal.
    now rewrite append_assoc.
Qed.

Lemma take_length_append (a b : string) : take (String.length a) (a ++ b) = a.
Proof. induction a as [|x a IH]; simpl; [now destruct b | now rewrite IH]. Qed.

Lemma drop_last_append_char (a : string) (c : ascii) :
  drop_last (a ++ String c "") = a.
Proof.
  unfold drop_last. rewrite length_append. simpl.
  replace (String.length a + 1 - 1) with (String.length a) by lia.
  apply take_length_append.
Qed.

(** X6: a path one of whose components, folder or file name, equals the
    folder of a folder pattern is skipped, at any depth and in any letter
    case of the path. *)
Theorem folder_component_skipped (p folder : string) :
  In (folder ++ "/") skip_patterns ->
  In folder (split "/" (lower p)) ->
  _should_skip_file p = true.
Proof.
  intros Hpat Hin. rewrite skip_rules.
  assert (Hhit : pattern_hits (lower p) (folder ++ "/") = true).
  { unfold pattern_hits.
    rewrite (endswith_append_r folder "/" "/" eq_refl).
    rewrite drop_last_append_char.
    apply orb_true_iff. left.
    apply (component_between_separators "/" (lower p) folder Hin). }
  assert (He : existsb (pattern_hits (lower p)) skip_patterns = true)
    by (apply existsb_exists; eauto).
  rewrite He. now rewrite orb_true_r.
Qed.

Lemma folder_component_skipped_witness :
  _should_skip_file "App/Build/Generated.java" = true
  /\ _should_skip_file "tools/bin" = true.
Proof.
  split.
  - apply (folder_component_skipped "App/Build/Generated.java" "build").
    + apply mem_In. reflexivity.
    + simpl. right. left. reflexivity.
  - apply (folder_component_skipped "tools/bin" "bin").
    + apply mem_In. reflexivity.
    + simpl. right. left. reflexivity.
Defined.

(** *** Nesting *)

Lemma lower_nested (d p : string) :
  lower (d ++ "/" ++ p) = lower d ++ "/" ++ lower p.
Proof. now rewrite !lower_append. Qed.

Lemma basename_nested (d p : string) :
  basename (d ++ "/" ++ p) = basename p.
Proof.
  unfold basename. rewrite rfind_append.
  change ("/" ++ p) with (String "/" p). cbn [rfind].
  destruct (rfind "/" p) as [i|].
  - replace (String.length d + S i + 1) with (String.length d + S (i + 1)) by lia.
    now rewrite drop_append_length.
  - change (Ascii.eqb "/" "/") with true. cbv iota.
    replace (String.length d + 0 + 1) with (String.length d + 1) by lia.
    now rewrite drop_append_length.
Qed.

Lemma pattern_hits_nested (d l pattern : string) :
  pattern_hits l pattern = true ->
  pattern_hits (d ++ "/" ++ l) pattern = true.
Proof.
  unfold pattern_hits. destruct (endswith pattern "/").
  - intros H. apply orb_true_iff. left.
    replace ("/" ++ (d ++ "/" ++ l) ++ "/")
      with (("/" ++ d) ++ ("/" ++ l ++ "/"))
      by (now rewrite !append_assoc).
    apply contains_append_r.
    apply orb_true_iff in H. destruct H as [H|H]; [assumption|].
    apply contains_startswith.
    change (startswith (String "/" (l ++ "/"))
                       (String "/" (drop_last pattern ++ "/")) = true).
    cbn [startswith]. rewrite Ascii.eqb_refl. cbn [andb].
    apply (startswith_append_l l _ "/"). exact H.
  - intros H. apply orb_true_iff in H. apply orb_true_iff.
    destruct H as [H|H].
    + left. apply endswith_append_r. now apply (endswith_append_r "/").
    + right. apply contains_append_r. now apply (contains_append_r "/").
Qed.

(** X7: skipping is inherited when a project is nested one folder deeper:
    a path that is skipped is still skipped below any folder. *)
Theorem skip_inherited_below_folder (d p : string) :
  _should_skip_file p = true ->
  _should_skip_file (d ++ "/" ++ p) = true.
Proof.
  rewrite !skip_rules, lower_nested, basename_nested.
  intros H.
  apply orb_true_iff in H. destruct H as [H|H];
    [apply orb_true_iff in H; destruct H as [H|H];
     [apply orb_true_iff in H; destruct H as [H|H]|]|].
  - now rewrite H.
  - apply existsb_exists in H. destruct H as [pattern [Hin Hhit]].
    assert (He : existsb (pattern_hits (lower d ++ "/" ++ lower p)) skip_patterns
                 = true).
    { apply existsb_exists. exists pattern. split; [assumption|].
      now apply pattern_hits_nested. }
    rewrite He. now rewrite orb_true_r.
  - assert (Hd : (6 <? path_depth (d ++ "/" ++ p))%nat = true).
    { apply Nat.ltb_lt in H. apply Nat.ltb_lt. unfold path_depth in *.
      rewrite !count_append. lia. }
    rewrite Hd. now rewrite !orb_true_r.
  - apply existsb_exists in H. destruct H as [pattern [Hin Hhit]].
    assert (He : existsb (fun pattern => contains (lower d ++ "/" ++ lower p) pattern)
                         suspicious_patterns = true).
    { apply existsb_exists. exists pattern. split; [assumption|].
      apply contains_append_r. now apply (contains_append_r "/"). }
    rewrite He. now rewrite !orb_true_r.
Qed.

Lemma skip_inherited_below_folder_witness :
  _should_skip_file ("MyProject" ++ "/" ++ "gradlew") = true.
Proof. apply skip_inherited_below_folder. reflexivity. Defined.

(** *** Letter case of the extension *)











End ClassifierMore.


(** ** The orchestrator: further properties read off the code *)

Module OrchestratorMore.
Import Py PyFacts PyMore CodeConverter CodeConverterFacts.

(** *** The converted filename *)

Lemma splitext_ext_no_separator (p : string) :
  count "/" (snd (splitext p)) = 0.
Proof.
  unfold splitext.
  destruct (rfind "." p) as [dotIndex|]; [|reflexivity].
  destruct (rfind "/" p) as [sepIndex|] eqn:Hsep.
  - destruct ((sepIndex + 1 <=? dotIndex)%nat) eqn:Hle; [|reflexivity].
    destruct (has_non_dot _); [|reflexivity]. cbn [andb snd].
    apply Nat.leb_le in Hle.
    apply (rfind_after "/" p sepIndex dotIndex Hsep). lia.
  - destruct ((0 <=? dotIndex)%nat && has_non_dot _); [|reflexivity].
    cbn [snd]. apply rfind_none_count in Hsep.
    pose proof (count_drop_le "/" p dotIndex). lia.
Qed.

Lemma converted_filename_eq (original_filename source_platform target_platform : string) :
  _get_converted_filename original_filename source_platform target_platform
  = fst (splitext original_filename)
      ++ extension_map target_platform (snd (splitext original_filename)).
Proof.
  unfold _get_converted_filename. now destruct (splitext original_filename).
Qed.

(** X9: the converted filename keeps the folder of the original: it has as
    many separators, and begins with the original name without its
    extension; it ends with the canonical extension of a supported target,
    and for any other target it is the original filename unchanged. *)
Theorem converted_filename_shape
        (original_filename source_platform target_platform : string) :
  let converted :=
    _get_converted_filename original_filename source_platform target_platform in
  count "/" converted = count "/" original_filename
  /\ startswith converted (fst (splitext original_filename)) = true
  /\ endswith converted
              (extension_map target_platform (snd (splitext original_filename)))
     = true
  /\ (target_platform <> "android_java" ->
      target_platform <> "android_kotlin" ->
      target_platform <> "ios_swift" ->
      converted = original_filename).
Proof.
  intros converted. subst converted. rewrite converted_filename_eq.
  split; [|split; [|split]].
  - rewrite <- (splitext_parts original_filename) at 3.
    rewrite !count_append, splitext_ext_no_separator.
    unfold extension_map.
    destruct (String.eqb target_platform "android_java"); [reflexivity|].
    destruct (String.eqb target_platform "android_kotlin"); [reflexivity|].
    destruct (String.eqb target_platform "ios_swift"); [reflexivity|].
    now rewrite splitext_ext_no_separator.
  - apply startswith_refl_append.
  - apply endswith_append_r, endswith_refl.
  - intros Hj Hk Hs. unfold extension_map.
    apply String.eqb_neq in Hj, Hk, Hs. rewrite Hj, Hk, Hs.
    apply splitext_parts.
Qed.

Lemma converted_filename_shape_witness :
  _get_converted_filename "app/src/Main.java" "android_java" "flutter_dart"
  = "app/src/Main.java"
  /\ count "/" (_get_converted_filename "app/src/Main.java" "android_java" "ios_swift")
     = 2.
Proof.
  destruct (converted_filename_shape "app/src/Main.java" "android_java" "flutter_dart")
    as [_ [_ [_ Hsame]]].
  destruct (converted_filename_shape "app/src/Main.java" "android_java" "ios_swift")
    as [Hcount _].
  split.
  - apply Hsame; discriminate.
  - exact Hcount.
Defined.

(** *** The Markdown fence *)




(** X11: an answer that is an opening fence line and nothing else makes the
    removal of the fence raise (no line is left to look for the closing
    fence), which the attempt takes for a failure: three such answers give
    the fallback text after the sleeps of 2 and 4. *)
Theorem lone_fence_is_a_failure :
  (forall lang t,
      count "010" lang = 0 ->
      strip_code_fence ("```" ++ lang) t = (Raised "list index out of range", t))
  /\ (forall E source_code source_platform target_platform filename t,
        (forall k system user, create E k system user = Returned (Some "```")) ->
        let c := Create (_get_system_prompt source_platform target_platform)
                        (_create_conversion_prompt source_code source_platform
                                                   target_platform filename) in
        _convert_single_file E source_code source_platform target_platform filename t
        = (Returned (Some (_fallback_conversion source_code source_platform
                             target_platform filename)),
           (t ++ [c; Sleep 2; c; Sleep 4; c])%list)).
Proof.
  split.
  - intros lang t Hlang. unfold strip_code_fence.
    rewrite (startswith_refl_append "```").
    rewrite (split_no_sep "010" ("```" ++ lang))
      by (rewrite count_append; exact Hlang).
    cbn [hd tl]. now rewrite (startswith_refl_append "```").
  - intros E source_code source_platform target_platform filename t Hrep c.
    rewrite convert_single_file_unfold, !Hrep. reflexivity.
Qed.

Lemma lone_fence_is_a_failure_witness :
  strip_code_fence ("```" ++ "swift") [] = (Raised "list index out of range", [])
  /\ sleeps (snd (_convert_single_file
                    {| read := fun _ _ => Returned "class Main {}";
                       create := fun _ _ _ => Returned (Some "```") |}
                    "class Main {}" "android_java" "ios_swift" "Main.java" []))
     = [2; 4].
Proof.
  destruct lone_fence_is_a_failure as [H1 H2]. split.
  - apply H1. reflexivity.
  - rewrite H2; [reflexivity | intros; reflexivity].
Defined.

(** X12: an answer that is not empty but consists of white space only is
    not taken for an empty answer: the attempt succeeds at once, without
    retry, and the converted text is the empty string. *)
Theorem blank_answer_accepted (E : env)
        (source_code source_platform target_platform filename : string)
        (t : trace) (a : ascii) (answer : string) :
  let system := _get_system_prompt source_platform target_platform in
  let prompt :=
    _create_conversion_prompt source_code source_platform target_platform filename in
  create E (creates t) system prompt = Returned (Some (String a answer)) ->
  strip (String a answer) = "" ->
  is_empty_response (Returned (Some (String a answer))) = false
  /\ _convert_single_file E source_code source_platform target_platform filename t
     = (Returned (Some ""), (t ++ [Create system prompt])%list).
Proof.
  intros system prompt Hrep Hblank. split; [reflexivity|].
  rewrite convert_single_file_unfold. fold system prompt.
  rewrite Hrep. unfold answer_of. rewrite Hblank. reflexivity.
Qed.

Lemma blank_answer_accepted_witness :
  _convert_single_file
    {| read := fun _ _ => Returned "class Main {}";
       create := fun _ _ _ => Returned (Some "   ") |}
    "class Main {}" "android_java" "ios_swift" "Main.java" []
  = (Returned (Some ""),
     [Create (_get_system_prompt "android_java" "ios_swift")
             (_create_conversion_prompt "class Main {}" "android_java"
                                        "ios_swift" "Main.java")]).
Proof.
  apply (blank_answer_accepted
           {| read := fun _ _ => Returned "class Main {}";
              create := fun _ _ _ => Returned (Some "   ") |}
           "class Main {}" "android_java" "ios_swift" "Main.java" [] " " "  ");
    reflexivity.
Defined.

(** *** The batch *)

(** X13: when the read of an entry raises and the read of its exception
    handler raises too, [convert_files] raises the second error: the batch
    ends there, after two reads and no call of the capability, and the
    results made so far are not returned. *)
Theorem unreadable_entry_aborts_batch (E : env)
        (file_path relative_path : string) (rest : list (string * string))
        (source_platform target_platform : string)
        (converted_files : list (string * option string))
        (t : trace) (msg1 msg2 : string) :
  read E (open_reads t) file_path = Raised msg1 ->
  read E (open_reads t + 1) file_path = Raised msg2 ->
  convert_loop E source_platform target_platform
               ((file_path, relative_path) :: rest) converted_files t
  = (Raised msg2, (t ++ [OpenRead file_path; OpenRead file_path])%list)
  /\ convert_files E ((file_path, relative_path) :: rest)
                   source_platform target_platform t
     = (Raised msg2, (t ++ [OpenRead file_path; OpenRead file_path])%list).
Proof.
  intros H1 H2.
  assert (Hloop : forall acc,
             convert_loop E source_platform target_platform
                          ((file_path, relative_path) :: rest) acc t
             = (Raised msg2, (t ++ [OpenRead file_path; OpenRead file_path])%list)).
  { intros acc. cbn [convert_loop]. unfold bind at 1.
    unfold convert_entry, try_except, bind at 1, open_read. rewrite H1.
    unfold bind. rewrite open_reads_app.
    change (open_reads [OpenRead file_path]) with 1. rewrite H2.
    now rewrite <- app_assoc. }
  split; [apply Hloop|].
  unfold convert_files. apply (Hloop []).
Qed.

Lemma unreadable_entry_aborts_batch_witness :
  convert_files {| read := fun _ _ => Raised "[Errno 2] No such file or directory";
                   create := fun _ _ _ => Returned (Some "class Main") |}
                [("/tmp/c1/Main.java", "Main.java"); ("/tmp/c2/Util.java", "Util.java")]
                "android_java" "ios_swift" []
  = (Raised "[Errno 2] No such file or directory",
     [OpenRead "/tmp/c1/Main.java"; OpenRead "/tmp/c1/Main.java"]).
Proof.
  apply (proj2 (unreadable_entry_aborts_batch
                  {| read := fun _ _ => Raised "[Errno 2] No such file or directory";
                     create := fun _ _ _ => Returned (Some "class Main") |}
                  "/tmp/c1/Main.java" "Main.java" [("/tmp/c2/Util.java", "Util.java")]
                  "android_java" "ios_swift" [] []
                  "[Errno 2] No such file or directory"
                  "[Errno 2] No such file or directory" eq_refl eq_refl)).
Defined.

Lemma convert_entry_calls (E : env) (source_platform target_platform : string)
      (acc : list (string * option string)) (entry : string * string)
      (t t' : trace) (r : outcome (list (string * option string))) :
  convert_entry E source_platform target_platform acc entry t = (r, t') ->
  creates t' <= creates t + 3.
Proof.
  destruct entry as [file_path relative_path].
  unfold convert_entry, try_except, bind at 1, open_read.
  destruct (read E (open_reads t) file_path) as [source_code|msg].
  - unfold bind. rewrite convert_single_file_unfold.
    repeat match goal with
           | |- context [match answer_of ?o with _ => _ end] =>
               destruct (answer_of o)
           end;
      unfold ret; intros H; injection H as _ <-;
      rewrite !creates_app; unfold creates; simpl; lia.
  - unfold bind.
    destruct (read E _ file_path); unfold ret; intros H; injection H as _ <-;
      rewrite !creates_app; unfold creates; simpl; lia.
Qed.

(** X14: whatever the staged files and the capability do, when
    [convert_files] returns it returns exactly one result per entry, and it
    has called the capability at most three times per entry. *)
Theorem batch_keeps_every_entry (E : env)
        (extracted_files : list (string * string))
        (source_platform target_platform : string) (t t' : trace)
        (results : list (string * option string)) :
  convert_files E extracted_files source_platform target_platform t
  = (Returned results, t') ->
  List.length results = List.length extracted_files
  /\ creates t' <= creates t + 3 * List.length extracted_files.
Proof.
  unfold convert_files. intros H. split.
  - apply convert_loop_results in H. destruct H as [rs [-> Hrs]].
    cbn [app]. symmetry. apply (Forall2_length Hrs).
  - revert H. generalize (@nil (string * option string)) as acc. revert t.
    induction extracted_files as [|entry rest IH]; intros t acc H.
    + cbn [convert_loop] in H. unfold ret in H. injection H as _ <-. simpl. lia.
    + cbn [convert_loop] in H. unfold bind at 1 in H.
      destruct (convert_entry E source_platform target_platform acc entry t)
        as [[res|msg] t1] eqn:He; [|discriminate].
      apply convert_entry_calls in He. apply IH in H. cbn [List.length]. lia.
Qed.

Lemma batch_keeps_every_entry_witness :
  exists results t',
    convert_files Orchestrator.E_flaky_read Orchestrator.two_entries
                  "android_java" "ios_swift" []
    = (Returned results, t')
    /\ List.length results = 2 /\ creates t' <= 6.
Proof.
  destruct (convert_files Orchestrator.E_flaky_read Orchestrator.two_entries
                          "android_java" "ios_swift" [])
    as [[results|msg] t'] eqn:H; [|discriminate H].
  exists results, t'. split; [reflexivity|].
  exact (batch_keeps_every_entry Orchestrator.E_flaky_read Orchestrator.two_entries
           "android_java" "ios_swift" [] t' results H).
Defined.

End OrchestratorMore.


(** ** The handler and the output archive: further properties read off the
       code *)

Module HandlerMore.
Import Py PyFacts PyMore CodeConverter CodeConverterFacts FileHandler App.

(** *** [create_zip] *)

Lemma write_converted_none (converted_files : list (string * option string))
      (name : string) :
  In (name, None) converted_files ->
  forall members,
    write_converted converted_files members
    = Raised "object of type 'NoneType' has no len()".
Proof.
  induction converted_files as [|[n [content|]] rest IH]; intros Hin members.
  - destruct Hin.
  - destruct Hin as [Hin|Hin]; [discriminate|]. simpl. now apply IH.
  - reflexivity.
Qed.

(** X15: when [create_zip] returns, the archive holds the converted files in
    their order, each under its filename with its content, followed by the
    preserved files under their relative paths with their staged bytes; a
    preserved file whose bytes cannot be read is left out without failing
    the archive, whereas a converted file whose content is [None] makes
    [create_zip] raise. *)
Theorem zip_holds_results_then_preserved (FS : storage)
        (converted_files : list (string * option string))
        (output_path : string) (preserve_files : list (string * string)) :
  (forall saved,
      create_zip FS converted_files output_path preserve_files = Returned saved ->
      exists written,
        saved = ZipOutput output_path
                  (written
                     ++ flat_map (fun entry =>
                                    match staged_bytes FS (fst entry) with
                                    | Returned bytes => [(snd entry, bytes)]
                                    | Raised _ => []
                                    end)
                                 preserve_files)%list
        /\ map (fun m => (fst m, Some (snd m))) written = converted_files)
  /\ (forall name,
        In (name, None) converted_files ->
        exists msg,
          create_zip FS converted_files output_path preserve_files = Raised msg).
Proof.
  split.
  - intros saved H. apply Assembler.create_zip_members in H.
    destruct H as [written [-> Hw]]. exists written. split; [reflexivity|].
    induction Hw as [|c m cf ms Hcm Hw IH]; [reflexivity|].
    destruct c as [n c], m as [n' c'], Hcm as [Hn Hc].
    cbn [map]. rewrite IH. cbn [fst snd] in *. now rewrite Hn, Hc.
  - intros name Hin. unfold create_zip.
    destruct (open_write FS output_path); [|eauto].
    rewrite (write_converted_none converted_files name Hin). eauto.
Qed.

Lemma zip_holds_results_then_preserved_witness :
  create_zip {| open_write := fun _ => Returned tt;
                staged_bytes := fun file =>
                  if String.eqb file "/tmp/p1/Info.plist" then Returned "<plist/>"
                  else Raised "[Errno 2] No such file or directory" |}
             [("Main.kt", Some "class Main"); ("Util.kt", Some "object Util")]
             "converted/out.zip"
             [("/tmp/p1/Info.plist", "Info.plist"); ("/tmp/p2/gone.plist", "gone.plist")]
  = Returned (ZipOutput "converted/out.zip"
                        [("Main.kt", "class Main"); ("Util.kt", "object Util");
                         ("Info.plist", "<plist/>")]).
Proof.
  destruct (proj1 (zip_holds_results_then_preserved
                     {| open_write := fun _ => Returned tt;
                        staged_bytes := fun file =>
                          if String.eqb file "/tmp/p1/Info.plist"
                          then Returned "<plist/>"
                          else Raised "[Errno 2] No such file or directory" |}
                     [("Main.kt", Some "class Main"); ("Util.kt", Some "object Util")]
                     "converted/out.zip"
                     [("/tmp/p1/Info.plist", "Info.plist");
                      ("/tmp/p2/gone.plist", "gone.plist")])
                  _ eq_refl) as [written [_ _]].
  reflexivity.
Defined.

(** *** The upload filter *)

Lemma after_last_dot_append (stem ext : string) :
  count "." ext = 0 ->
  after_last_dot (stem ++ "." ++ ext) = ext.
Proof.
  intros Hext. unfold after_last_dot. rewrite rfind_append.
  change ("." ++ ext) with (String "." ext). cbn [rfind].
  rewrite (proj2 (rfind_none_count "." ext) Hext).
  change (Ascii.eqb "." ".") with true. cbv iota.
  replace (String.length stem + 0 + 1) with (String.length stem + 1) by lia.
  now rewrite drop_append_length.
Qed.

(** X16: [allowed_file] looks at the text after the last dot only, without
    regard to letter case: a name [stem.ext] is allowed exactly when
    [ext], lowercased, is one of zip, java, kt, swift, xml; a name without
    a dot is refused, whatever it is. *)
Theorem allowed_file_by_extension (stem ext name : string) :
  (count "." ext = 0 ->
   allowed_file (stem ++ "." ++ ext) = mem (lower ext) ALLOWED_EXTENSIONS)
  /\ (count "." name = 0 -> allowed_file name = false).
Proof.
  split.
  - intros Hext. unfold allowed_file.
    rewrite (after_last_dot_append stem ext Hext).
    assert (Hc : contains (stem ++ "." ++ ext) "." = true).
    { apply contains_iff. exists stem, ext. reflexivity. }
    now rewrite Hc.
  - intros Hname. unfold allowed_file.
    destruct (contains name ".") eqn:Hc; [|reflexivity].
    apply contains_iff in Hc. destruct Hc as [a [b ->]].
    rewrite !count_append in Hname. simpl in Hname. lia.
Qed.

Lemma allowed_file_by_extension_witness :
  allowed_file ("Project.v2" ++ "." ++ "ZIP") = true
  /\ allowed_file "zip" = false.
Proof.
  destruct (allowed_file_by_extension "Project.v2" "ZIP" "zip") as [H1 H2].
  split; [rewrite H1; reflexivity | apply H2; reflexivity].
Defined.

(** *** The conversion-type filter *)

Lemma last_part_of_suffix (s ext : string) :
  count "." ext = 0 ->
  endswith s ("." ++ ext) = true ->
  last (split "." s) "" = ext.
Proof.
  intros Hext He. apply endswith_iff in He. destruct He as [a ->].
  change ("." ++ ext) with (String "." ext).
  rewrite split_append_sep, (split_no_sep "." ext Hext).
  apply last_last.
Qed.

(** X17: the conversion-type filter, applied before the orchestrator runs:
    with [logic_only] no entry whose relative path ends in [.xml], in any
    letter case, is kept; with [layouts_only] every such entry is kept;
    [full_project] keeps every entry; and any other conversion type keeps
    none. *)
Theorem conversion_type_filter (all_extracted_files : list (string * string))
        (file_path relative_path conversion_type : string) :
  (endswith (lower relative_path) ".xml" = true ->
   ~ In (file_path, relative_path)
        (apply_conversion_type "logic_only" all_extracted_files))
  /\ (endswith (lower relative_path) ".xml" = true ->
      In (file_path, relative_path) all_extracted_files ->
      In (file_path, relative_path)
         (apply_conversion_type "layouts_only" all_extracted_files))
  /\ apply_conversion_type "full_project" all_extracted_files = all_extracted_files
  /\ (conversion_type <> "full_project" ->
      conversion_type <> "logic_only" ->
      conversion_type <> "layouts_only" ->
      apply_conversion_type conversion_type all_extracted_files = []).
Proof.
  split; [|split; [|split]].
  - intros Hx Hin. unfold apply_conversion_type in Hin.
    destruct all_extracted_files as [|e l]; [destruct Hin|].
    cbn [String.eqb negb] in Hin.
    change (negb (String.eqb "logic_only" "full_project")) with true in Hin.
    cbv iota in Hin. apply filter_In in Hin. destruct Hin as [_ Hk].
    unfold keep_for in Hk.
    change (String.eqb "logic_only" "logic_only") with true in Hk. cbv iota in Hk.
    rewrite (last_part_of_suffix (lower relative_path) "xml" eq_refl Hx) in Hk.
    discriminate.
  - intros Hx Hin. unfold apply_conversion_type.
    destruct all_extracted_files as [|e l]; [destruct Hin|].
    change (negb (String.eqb "layouts_only" "full_project")) with true. cbv iota.
    apply filter_In. split; [assumption|].
    unfold keep_for.
    change (String.eqb "layouts_only" "logic_only") with false.
    change (String.eqb "layouts_only" "layouts_only") with true. cbv iota.
    now rewrite (last_part_of_suffix (lower relative_path) "xml" eq_refl Hx).
  - now destruct all_extracted_files.
  - intros Hf Hl Hy. unfold apply_conversion_type.
    destruct all_extracted_files as [|e l]; [reflexivity|].
    apply String.eqb_neq in Hf, Hl, Hy. rewrite Hf. cbn [negb].
    generalize (e :: l). intros entries.
    induction entries as [|[f r] rest IH]; [reflexivity|].
    cbn [filter]. unfold keep_for at 1. now rewrite Hl, Hy.
Qed.

Lemma conversion_type_filter_witness :
  ~ In ("/tmp/c2/res/Main.XML", "res/Main.XML")
       (apply_conversion_type "logic_only"
          [("/tmp/c1/Main.java", "Main.java"); ("/tmp/c2/res/Main.XML", "res/Main.XML")])
  /\ apply_conversion_type "everything"
       [("/tmp/c1/Main.java", "Main.java"); ("/tmp/c2/res/Main.XML", "res/Main.XML")]
     = [].
Proof.
  destruct (conversion_type_filter
              [("/tmp/c1/Main.java", "Main.java");
               ("/tmp/c2/res/Main.XML", "res/Main.XML")]
              "/tmp/c2/res/Main.XML" "res/Main.XML" "everything")
    as [H1 [_ [_ H4]]].
  split; [apply H1; reflexivity | apply H4; discriminate].
Defined.

(** *** The fallback files of the handler *)

(** The comment that opens a fallback file of the handler. *)
Definition fallback_comment (conversion_error source_platform : string) : string :=
  "// CONVERSION FAILED: " ++ take 100 conversion_error ++ "..." ++ nl
    ++ "// Original " ++ source_platform ++ " file preserved below" ++ nl ++ nl.

Lemma fallback_files_spec (E : env) (conversion_error source_platform : string)
      (all_extracted_files : list (string * string)) :
  forall (acc : list (string * option string)) (t : trace),
  exists results,
    fallback_files E conversion_error source_platform all_extracted_files acc t
    = (Returned (acc ++ results)%list,
       (t ++ map (fun entry => OpenRead (fst entry)) all_extracted_files)%list)
    /\ List.length results <= List.length all_extracted_files
    /\ (forall name content,
          In (name, content) results ->
          exists file source_code,
            In (file, name) all_extracted_files
            /\ content = Some (fallback_comment conversion_error source_platform
                                 ++ source_code))
    /\ ((forall k file, exists msg, read E k file = Raised msg) -> results = [])
    /\ ((forall k file, exists source_code, read E k file = Returned source_code) ->
        map fst results = map snd all_extracted_files).
Proof.
  induction all_extracted_files as [|[file rel] rest IH]; intros acc t.
  - exists []. simpl. rewrite !app_nil_r.
    split; [reflexivity|]. split; [lia|]. split; [intros name content []|].
    split; reflexivity.
  - cbn [fallback_files]. unfold bind at 1, try_except, bind at 1, open_read.
    destruct (read E (open_reads t) file) as [source_code|msg] eqn:Hr.
    + unfold ret.
      match goal with
      | |- context [fallback_files _ _ _ rest ?a ?u] =>
          destruct (IH a u) as [rs [Heq [Hlen [Hin [Hnone Hall]]]]]
      end.
      exists ((rel, Some (fallback_comment conversion_error source_platform
                            ++ source_code)) :: rs).
      split; [|split; [|split; [|split]]].
      * unfold fallback_comment. rewrite !append_assoc.
        unfold fallback_comment in Heq. rewrite !append_assoc in Heq.
        rewrite Heq. cbn [map fst]. now rewrite <- !app_assoc.
      * simpl. lia.
      * intros name content [H|H].
        -- injection H as <- <-. exists file, source_code. split; [now left | reflexivity].
        -- destruct (Hin name content H) as [f [src [Hf Hc]]].
           exists f, src. split; [now right | assumption].
      * intros Hraise. destruct (Hraise (open_reads t) file) as [m Hm].
        rewrite Hm in Hr. discriminate.
      * intros Hok. cbn [map fst snd]. now rewrite (Hall Hok).
    + unfold ret. destruct (IH acc (t ++ [OpenRead file])%list)
        as [rs [Heq [Hlen [Hin [Hnone Hall]]]]].
      exists rs. split; [|split; [|split; [|split]]].
      * rewrite Heq. cbn [map fst]. now rewrite <- !app_assoc.
      * simpl. lia.
      * intros name content H. destruct (Hin name content H) as [f [src [Hf Hc]]].
        exists f, src. split; [now right | assumption].
      * exact Hnone.
      * intros Hok. destruct (Hok (open_reads t) file) as [src Hsrc].
        rewrite Hsrc in Hr. discriminate.
Qed.



(** *** The uploads of a request *)

(** What one upload adds to the entries to convert and to the entries to
    preserve. *)
Definition upload_code_entries (source_platform : string) (u : upload)
  : list (string * string) :=
  if endswith (lower (secure_name u)) ".zip" then
    match extract_project_files (archive u) source_platform with
    | Returned r => code_files r
    | Raised _ => []
    end
  else [(path_join UPLOAD_FOLDER (secure_name u), secure_name u)].

Definition upload_preserve_entries (source_platform : string) (u : upload)
  : list (string * string) :=
  if endswith (lower (secure_name u)) ".zip" then
    match extract_project_files (archive u) source_platform with
    | Returned r => preserved r
    | Raised _ => []
    end
  else [].

Lemma last_cons_default (A : Type) (x d : A) (l : list A) :
  last (x :: l) d = last l x.
Proof.
  revert x d. induction l as [|a l IH]; intros x d; [reflexivity|].
  change (last (x :: a :: l) d) with (last (a :: l) d).
  now rewrite (IH a d), (IH a x).
Qed.

(** X19: when every upload is saved, the uploads are collected in order:
    an archive adds its code entries and its preserve entries, an archive
    that fails to extract adds nothing and does not stop the request, any
    other file adds itself under its secured name in the upload folder; the
    name kept for the output archive is the secured name of the last
    upload. *)
Theorem uploads_collected (valid_files : list upload) (source_platform : string) :
  (forall u, In u valid_files -> filename u <> "" /\ save u = Returned tt) ->
  forall acc,
    process_uploads valid_files source_platform acc
    = Returned
        {| all_extracted_files :=
             (all_extracted_files acc
                ++ flat_map (upload_code_entries source_platform) valid_files)%list;
           preserve_files :=
             (preserve_files acc
                ++ flat_map (upload_preserve_entries source_platform) valid_files)%list;
           last_filename :=
             last (map secure_name valid_files) (last_filename acc) |}.
Proof.
  induction valid_files as [|u rest IH]; intros Hok acc.
  - destruct acc. simpl. now rewrite !app_nil_r.
  - destruct (Hok u (or_introl eq_refl)) as [Hname Hsave].
    assert (Hrest : forall v, In v rest -> filename v <> "" /\ save v = Returned tt)
      by (intros v Hv; apply Hok; now right).
    cbn [process_uploads]. apply String.eqb_neq in Hname. rewrite Hname, Hsave.
    cbn [flat_map map]. rewrite last_cons_default.
    unfold upload_code_entries at 1, upload_preserve_entries at 1.
    destruct (endswith (lower (secure_name u)) ".zip").
    + destruct (extract_project_files (archive u) source_platform) as [r|msg];
        rewrite (IH Hrest); cbn [all_extracted_files preserve_files last_filename];
        now rewrite <- ?app_assoc.
    + rewrite (IH Hrest). cbn [all_extracted_files preserve_files last_filename].
      now rewrite <- ?app_assoc, ?app_nil_r.
Qed.

Lemma uploads_collected_witness :
  process_uploads
    [ {| filename := "broken.zip"; secure_name := "broken.zip";
         save := Returned tt; archive := BadZipFile |};
      {| filename := "Main.java"; secure_name := "Main.java";
         save := Returned tt; archive := BadZipFile |} ]
    "android_java"
    {| all_extracted_files := []; preserve_files := [];
       last_filename := "conversion" |}
  = Returned {| all_extracted_files := [("uploads/Main.java", "Main.java")];
                preserve_files := [];
                last_filename := "Main.java" |}.
Proof.
  rewrite uploads_collected; [reflexivity|].
  intros u [<-|[<-|[]]]; split; try reflexivity; discriminate.
Defined.

(** *** One upload that is not an archive *)

Lemma save_converted_one (FS : storage)
      (filename source_platform target_platform : string)
      (x : string * option string) (preserve_files : list (string * string))
      (resp : response) :
  save_converted FS false filename source_platform target_platform [x] preserve_files
  = Returned resp ->
  exists name path written, resp = RedirectPreview name true (SingleFile path written).
Proof.
  unfold save_converted. cbn [List.length Nat.eqb andb negb hd].
  destruct x as [converted_filename converted_content].
  destruct (open_write FS _); [|discriminate].
  intros H. injection H as <-. eauto.
Qed.

Lemma convert_files_one (E : env) (x : string * string)
      (source_platform target_platform : string) (t t' : trace)
      (results : list (string * option string)) :
  convert_files E [x] source_platform target_platform t = (Returned results, t') ->
  exists y, results = [y].
Proof.
  unfold convert_files. intros H. apply convert_loop_results in H.
  destruct H as [rs [-> Hrs]]. cbn [app].
  inversion Hrs as [|a b l l' Hab Hl]; subst. inversion Hl; subst. now exists b.
Qed.

Lemma fallback_files_one (E : env) (conversion_error source_platform : string)
      (x : string * string) (t : trace) :
  exists results t',
    fallback_files E conversion_error source_platform [x] [] t = (Returned results, t')
    /\ (results = [] \/ exists y, results = [y]).
Proof.
  destruct (fallback_files_spec E conversion_error source_platform [x] [] t)
    as [results [Heq [Hlen _]]].
  exists results. eexists. split; [exact Heq|].
  destruct results as [|y [|z l]]; [now left | right; now exists y|].
  simpl in Hlen. lia.
Qed.

(** X20: a request whose only valid upload is not an archive never gets an
    archive back: when the handler answers with an artifact, it is a single
    file. *)
Theorem single_upload_writes_single_file (E : env) (FS : storage) (r : request)
        (t : trace) (name : string) (single : bool) (saved : artifact) :
  single_non_archive_input r = true ->
  fst (convert_code E FS r t) = Returned (RedirectPreview name single saved) ->
  single = true /\ exists path written, saved = SingleFile path written.
Proof.
  intros Hs H. unfold single_non_archive_input in Hs.
  destruct (filter (fun f => negb (String.eqb (filename f) "")
                             && allowed_file (filename f)) (code_file r))
    as [|f [|g l]] eqn:Hv; try discriminate.
  apply negb_true_iff in Hs.
  unfold convert_code, try_except in H.
  destruct (convert_code_body E FS r t) as [[resp|msg] t'] eqn:Hb;
    cbn [fst] in H; [|discriminate].
  unfold ret in H. cbn [fst] in H. injection H as ->.
  unfold convert_code_body in Hb.
  destruct (forallb _ (code_file r)); [discriminate|].
  destruct (String.eqb (source_platform r) "" || String.eqb (target_platform r) "");
    [discriminate|].
  destruct (String.eqb (source_platform r) (target_platform r)); [discriminate|].
  rewrite Hv in Hb. cbn [process_uploads] in Hb.
  destruct (String.eqb (filename f) ""); [discriminate|].
  destruct (save f); [|discriminate].
  rewrite Hs in Hb. cbn [process_uploads all_extracted_files App.preserve_files
                          last_filename app] in Hb.
  assert (Hx : apply_conversion_type (conversion_type r)
                 [(path_join UPLOAD_FOLDER (secure_name f), secure_name f)] = []
               \/ apply_conversion_type (conversion_type r)
                    [(path_join UPLOAD_FOLDER (secure_name f), secure_name f)]
                  = [(path_join UPLOAD_FOLDER (secure_name f), secure_name f)]).
  { unfold apply_conversion_type.
    destruct (negb (String.eqb (conversion_type r) "full_project")); [|now right].
    cbn [filter]. destruct (keep_for (conversion_type r) _); [now right | now left]. }
  destruct Hx as [Hx|Hx]; rewrite Hx in Hb; [discriminate|].
  change (1 <? List.length [f])%nat with false in Hb.
  assert (Hsave : forall y t1,
             match save_converted FS false (secure_name f) (source_platform r)
                     (target_platform r) [y] [] with
             | Returned resp => ret resp
             | Raised msg => raise msg
             end t1 = (Returned (RedirectPreview name single saved), t') ->
             single = true /\ exists path written, saved = SingleFile path written).
  { intros y t1 Hy.
    destruct (save_converted FS false (secure_name f) (source_platform r)
                (target_platform r) [y] []) as [resp|msg] eqn:Hsv;
      [|discriminate].
    apply save_converted_one in Hsv. destruct Hsv as [n [path [written ->]]].
    unfold ret in Hy. injection Hy as <- <- <-. split; [reflexivity|]. eauto. }
  unfold bind at 1, try_except, bind at 1 in Hb.
  destruct (convert_files E [(path_join UPLOAD_FOLDER (secure_name f), secure_name f)]
                          (source_platform r) (target_platform r) t)
    as [[cf|err] t1] eqn:Hc.
  - apply convert_files_one in Hc. destruct Hc as [y ->].
    unfold ret at 1 in Hb. now apply (Hsave y t1).
  - unfold bind at 1 in Hb.
    destruct (fallback_files_one E err (source_platform r)
                (path_join UPLOAD_FOLDER (secure_name f), secure_name f) t1)
      as [results [t2 [Hf Hres]]].
    rewrite Hf in Hb. destruct Hres as [->|[y ->]]; [discriminate|].
    unfold ret at 1 in Hb. now apply (Hsave y t2).
Qed.

(** The request that uploads [Main.java] alone. *)
Definition java_upload_request : request :=
  {| code_file := [ {| filename := "Main.java"; secure_name := "Main.java";
                       save := Returned tt; archive := BadZipFile |} ];
     source_platform := "android_java";
     target_platform := "ios_swift";
     conversion_type := "full_project" |}.

Lemma single_upload_writes_single_file_witness :
  exists name path written,
    fst (convert_code Orchestrator.E_down Assembler.FS_ok java_upload_request [])
    = Returned (RedirectPreview name true (SingleFile path written)).
Proof.
  destruct (fst (convert_code Orchestrator.E_down Assembler.FS_ok
                              java_upload_request []))
    as [[flash|name single saved]|msg] eqn:H;
    try (vm_compute in H; discriminate H).
  destruct (single_upload_writes_single_file Orchestrator.E_down Assembler.FS_ok
              java_upload_request [] name single saved eq_refl H)
    as [-> [path [written ->]]].
  exists name, path, written. reflexivity.
Defined.

End HandlerMore.
